(** * Meshing node: the bounding-box watcher and its lifecycle guard

    A shallow embedding of [boundingBoxMonitor] and [BoundingBoxThread]
    from [meshroom/nodes/aliceVision/Meshing.py], and the properties of
    the watcher that are stated about them.

    Conventions of the embedding:
    - timestamps ([time.time()], [os.path.getmtime]) are rationals, in
      seconds; Python compares them with [<];
    - the text returned by [stream.read()] is a [string] whose characters
      are code points below 256;
    - Python's [float()] is a parameter of the development
      ([float : string -> option F], [None] standing for [ValueError]);
    - a Python call returns a value, raises an exception or does not
      return: the three constructors of [result];
    - the watcher thread runs concurrently with the thread that created
      it; the interleaving is an explicit schedule of atomic steps. *)

From Stdlib Require Import List String Ascii Bool NArith ZArith QArith Lia.
Import ListNotations.

Set Implicit Arguments.
Local Open Scope nat_scope.

(** ** Python values used by the watcher *)

(** [str.strip()] and [str.splitlines()]. *)
Module PyStr.

Definition code_in (c : ascii) (l : list N) : bool :=
  existsb (N.eqb (N_of_ascii c)) l.

(** [str.isspace] on one character: TAB, LF, VT, FF, CR, FS, GS, RS,
    US, space, NEL and the no-break space. *)
Definition is_space (c : ascii) : bool :=
  code_in c [9; 10; 11; 12; 13; 28; 29; 30; 31; 32; 133; 160]%N.

(** The line boundaries of [str.splitlines]: LF, CR, VT, FF, FS, GS,
    RS and NEL (CR LF counts as one). *)
Definition is_linebreak (c : ascii) : bool :=
  code_in c [10; 13; 11; 12; 28; 29; 30; 133]%N.

Definition is_cr (c : ascii) : bool := code_in c [13]%N.
Definition is_lf (c : ascii) : bool := code_in c [10]%N.

Definition is_empty (s : string) : bool :=
  match s with EmptyString => true | String _ _ => false end.

Fixpoint lstrip (s : string) : string :=
  match s with
  | EmptyString => EmptyString
  | String c s' => if is_space c then lstrip s' else s
  end.

Fixpoint rstrip (s : string) : string :=
  match s with
  | EmptyString => EmptyString
  | String c s' =>
      let r := rstrip s' in
      if is_space c && is_empty r then EmptyString else String c r
  end.

Definition strip (s : string) : string := rstrip (lstrip s).

(** [cur] is the line read so far, last character first. *)
Fixpoint splitlines_from (cur : list ascii) (s : string) : list string :=
  match s with
  | EmptyString =>
      match cur with
      | [] => []
      | _ :: _ => [string_of_list_ascii (rev cur)]
      end
  | String c s' =>
      if is_linebreak c then
        string_of_list_ascii (rev cur) ::
        match s' with
        | String c' s'' =>
            if is_cr c && is_lf c' then splitlines_from [] s''
            else splitlines_from [] s'
        | EmptyString => []
        end
      else splitlines_from (c :: cur) s'
  end.

Definition splitlines (s : string) : list string := splitlines_from [] s.

End PyStr.

(** The exceptions that occur in the watcher and its guard. *)
Inductive exn : Type :=
| KeyboardInterrupt
| SystemError
| GeneratorExit
| NoSuchProcess
| ValueError
| IndexError
| RuntimeError
| OtherError (name : string).

(** Outcome of a call: it returns [a], raises [e], or never returns. *)
Inductive result (A : Type) : Type :=
| Ok (a : A)
| Raise (e : exn)
| Hang.
Arguments Raise {A} e.
Arguments Hang {A}.

(** Computations over a mutable state [S] that may raise: the state at
    the point of the raise is kept. *)
Definition ST (S A : Type) : Type := S -> result A * S.

Definition ret {S A} (a : A) : ST S A := fun s => (Ok a, s).
Definition raise {S A} (e : exn) : ST S A := fun s => (Raise e, s).
Definition bind {S A B} (m : ST S A) (k : A -> ST S B) : ST S B :=
  fun s =>
    match m s with
    | (Ok a, s') => k a s'
    | (Raise e, s') => (Raise e, s')
    | (Hang, s') => (Hang, s')
    end.
Definition modify {S} (f : S -> S) : ST S unit := fun s => (Ok tt, f s).
Definition gets {S A} (f : S -> A) : ST S A := fun s => (Ok (f s), s).

(** [try: m finally: fin].  The finaliser runs whether [m] returned or
    raised; an exception of the finaliser replaces the pending outcome. *)
Definition try_finally {S A} (m : ST S A) (fin : ST S unit) : ST S A :=
  fun s =>
    match m s with
    | (Hang, s') => (Hang, s')
    | (r, s') =>
        match fin s' with
        | (Ok _, s'') => (r, s'')
        | (Raise e, s'') => (Raise e, s'')
        | (Hang, s'') => (Hang, s'')
        end
    end.

Declare Scope st_scope.
Delimit Scope st_scope with st.
Notation "x <- m ;; k" := (bind m (fun x => k))
  (at level 61, m at next level, right associativity) : st_scope.
Notation "m ;; k" := (bind m (fun _ => k))
  (at level 61, right associativity) : st_scope.

(** The file [boundingBox.txt] next to the node's output mesh, as
    [os.path.getmtime] and [stream.read()] see it. *)
Record FileStat : Type := {
  mtime : Q;
  content : string
}.

Definition Qltb (a b : Q) : bool :=
  match (a ?= b)%Q with Lt => true | _ => false end.

(** ** The watcher thread and what it observes *)

(** Answer of [parentProc.is_running()]; [Vanished] stands for the call
    raising [psutil.NoSuchProcess]. *)
Inductive liveness : Type := Running | NotRunning | Vanished.

(** What the watcher reads from outside the node. *)
Record Env : Type := {
  bboxFile : option FileStat;
  clock : Q;
  parentAlive : liveness
}.

(** Where the thread stands: not started, started with [run] not yet
    entered, or at one of the calls of [run] that look at the outside
    ([updateBoundingBox] in the loop, [_stopFlag.wait],
    [parentProc.is_running], the last [updateBoundingBox]), or left
    [run] with outcome [o]. *)
Inductive pc : Type :=
| Created
| Started
| AtCheck
| AtWait
| AtLive
| AtFinal
| Exited (o : result unit).

(** The fields of a [BoundingBoxThread].  [startTime] is assigned by the
    first statement of [run]; nothing reads it earlier. *)
Record Thread : Type := {
  checkOnce : bool;
  stopFlag : bool;
  interval : Q;
  startTime : Q;
  at_pc : pc
}.

Definition set_pc (p : pc) (t : Thread) : Thread :=
  {| checkOnce := checkOnce t; stopFlag := stopFlag t;
     interval := interval t; startTime := startTime t; at_pc := p |}.

Definition set_startTime (q : Q) (t : Thread) : Thread :=
  {| checkOnce := checkOnce t; stopFlag := stopFlag t;
     interval := interval t; startTime := q; at_pc := at_pc t |}.

(** [BoundingBoxThread.__init__]. *)
Definition BoundingBoxThread (once : bool) : Thread :=
  {| checkOnce := once; stopFlag := false; interval := 5;
     startTime := 0; at_pc := Created |}.

(** [BoundingBoxThread.stopRequest]: [self._stopFlag.set()]. *)
Definition stopRequest (t : Thread) : Thread :=
  {| checkOnce := checkOnce t; stopFlag := true;
     interval := interval t; startTime := startTime t; at_pc := at_pc t |}.

(** The clause [except (KeyboardInterrupt, SystemError, GeneratorExit,
    psutil.NoSuchProcess): pass] of [run]. *)
Definition caught (e : exn) : bool :=
  match e with
  | KeyboardInterrupt | SystemError | GeneratorExit | NoSuchProcess => true
  | _ => false
  end.

Definition leave_run (e : exn) : result unit :=
  if caught e then Ok tt else Raise e.

(** Observable events, in the order in which they happen. *)
Inductive event : Type :=
| EvCreate
| EvStart
| EvBodyBegin
| EvBodyEnd
| EvStopRequest
| EvJoin
| EvCheck (final : bool) (r : result bool)
| EvWait (stopped : bool)
| EvIsRunning (l : liveness).

Definition is_final_check (e : event) : bool :=
  match e with EvCheck true _ => true | _ => false end.

Definition is_check (e : event) : bool :=
  match e with EvCheck _ _ => true | _ => false end.

(** Events of the watcher thread, as opposed to those of the guard. *)
Definition is_watcher_event (e : event) : bool :=
  match e with
  | EvCheck _ _ | EvWait _ | EvIsRunning _ => true
  | _ => false
  end.

(** Number of last checks (the one after a stop request) in a history. *)
Definition finals (l : list event) : nat :=
  List.length (filter is_final_check l).

(** Calls that [run] still has to make, at most, once the stop flag is
    set. *)
Definition rank (p : pc) : nat :=
  match p with
  | Created => 6
  | Started => 5
  | AtCheck => 4
  | AtWait => 3
  | AtLive => 2
  | AtFinal => 1
  | Exited _ => 0
  end.

(** One atomic step of the system: the watcher thread advances to its
    next call, or something outside it happens. *)
Inductive action : Type :=
| Tick
| SetFile (f : option FileStat)
| SetClock (t : Q)
| SetAlive (l : liveness)
| StopRequest.

(** ** The parameter tree *)

Section Watcher.

(** Python's floating-point numbers and [float(token)]. *)
Variable F : Type.
Variable float : string -> option F.

Record Vec3 : Type := { x : F; y : F; z : F }.

(** The group attribute [boundingBox] of the node descriptor. *)
Record BoundingBox : Type := {
  bboxTranslation : Vec3;
  bboxRotation : Vec3;
  bboxScale : Vec3
}.

Record Node : Type := {
  useBoundingBox : bool;
  boundingBox : BoundingBox;
  automaticBBoxValid : bool
}.

Inductive group : Type := Translation | Rotation | Scale.
Inductive axis : Type := AxisX | AxisY | AxisZ.

(** Iteration order of [self.node.boundingBox.value] and of each
    [vec.value]: the order of [groupDesc] in the descriptor. *)
Definition groups : list group := [Translation; Rotation; Scale].
Definition axes : list axis := [AxisX; AxisY; AxisZ].

Definition get_vec (g : group) (b : BoundingBox) : Vec3 :=
  match g with
  | Translation => bboxTranslation b
  | Rotation => bboxRotation b
  | Scale => bboxScale b
  end.

Definition set_vec (g : group) (v : Vec3) (b : BoundingBox) : BoundingBox :=
  match g with
  | Translation =>
      {| bboxTranslation := v; bboxRotation := bboxRotation b;
         bboxScale := bboxScale b |}
  | Rotation =>
      {| bboxTranslation := bboxTranslation b; bboxRotation := v;
         bboxScale := bboxScale b |}
  | Scale =>
      {| bboxTranslation := bboxTranslation b;
         bboxRotation := bboxRotation b; bboxScale := v |}
  end.

Definition set_axis (a : axis) (v : F) (p : Vec3) : Vec3 :=
  match a with
  | AxisX => {| x := v; y := y p; z := z p |}
  | AxisY => {| x := x p; y := v; z := z p |}
  | AxisZ => {| x := x p; y := y p; z := v |}
  end.

(** [x.value = v] for the leaf [a] of the group [g]. *)
Definition set_leaf (g : group) (a : axis) (v : F) (n : Node) : Node :=
  {| useBoundingBox := useBoundingBox n;
     boundingBox :=
       set_vec g (set_axis a v (get_vec g (boundingBox n))) (boundingBox n);
     automaticBBoxValid := automaticBBoxValid n |}.

Definition set_valid (b : bool) (n : Node) : Node :=
  {| useBoundingBox := useBoundingBox n;
     boundingBox := boundingBox n;
     automaticBBoxValid := b |}.

(** The nine leaves of the tree in documented order. *)
Definition leaves (b : BoundingBox) : list F :=
  [ x (bboxTranslation b); y (bboxTranslation b); z (bboxTranslation b);
    x (bboxRotation b); y (bboxRotation b); z (bboxRotation b);
    x (bboxScale b); y (bboxScale b); z (bboxScale b) ].

(** ** [BoundingBoxThread.updateBoundingBox] *)

(** [list(map(float, tokens))]: [None] when some [float] raises. *)
Fixpoint map_float (tokens : list string) : option (list F) :=
  match tokens with
  | [] => Some []
  | t :: ts =>
      match float t with
      | None => None
      | Some v =>
          match map_float ts with
          | None => None
          | Some vs => Some (v :: vs)
          end
      end
  end.

(** [data[i]] for a non-negative index. *)
Definition index (data : list F) (i : nat) : ST Node F :=
  match nth_error data i with
  | Some v => ret v
  | None => raise IndexError
  end.

(** [for x in vec.value: x.value = data[i]; i += 1]; returns [i]. *)
Fixpoint write_vec (g : group) (l : list axis) (data : list F) (i : nat)
  : ST Node nat :=
  match l with
  | [] => ret i
  | a :: l' =>
      (v <- index data i ;;
       modify (set_leaf g a v) ;;
       write_vec g l' data (S i))%st
  end.

(** [for vec in self.node.boundingBox.value: ...]. *)
Fixpoint write_groups (l : list group) (data : list F) (i : nat)
  : ST Node nat :=
  match l with
  | [] => ret i
  | g :: l' =>
      (j <- write_vec g axes data i ;;
       write_groups l' data j)%st
  end.

Definition tokens_of (f : FileStat) : list string :=
  PyStr.splitlines (PyStr.strip (content f)).

Definition updateBoundingBox (startTime : Q) (file : option FileStat)
  : ST Node bool :=
  match file with
  | None => ret false
  | Some f =>
      if Qltb (mtime f) startTime then ret false
      else
        match map_float (tokens_of f) with
        | None => raise ValueError
        | Some data =>
            (write_groups groups data 0 ;;
             modify (set_valid true) ;;
             ret true)%st
        end
  end.

(** ** [BoundingBoxThread.run], one call at a time *)

Definition run_step (e : Env) (t : Thread) (n : Node)
  : Thread * Node * list event :=
  match at_pc t with
  | Created => (t, n, [])
  | Started =>
      (* self.startTime = time.time() if not self.checkOnce else -1 *)
      (set_pc AtCheck
         (set_startTime (if checkOnce t then -1 else clock e) t), n, [])
  | AtCheck =>
      (* updated = self.updateBoundingBox() *)
      match updateBoundingBox (startTime t) (bboxFile e) n with
      | (Ok updated, n') =>
          (set_pc (if updated || checkOnce t then Exited (Ok tt)
                   else AtWait) t,
           n', [EvCheck false (Ok updated)])
      | (Raise ex, n') =>
          (set_pc (Exited (leave_run ex)) t, n', [EvCheck false (Raise ex)])
      | (Hang, n') => (t, n', [])
      end
  | AtWait =>
      (* if self._stopFlag.wait(self.interval): *)
      (set_pc (if stopFlag t then AtLive else AtCheck) t, n,
       [EvWait (stopFlag t)])
  | AtLive =>
      (* if self.parentProc.is_running(): *)
      (set_pc match parentAlive e with
              | Running => AtFinal
              | NotRunning => Exited (Ok tt)
              | Vanished => Exited (leave_run NoSuchProcess)
              end t,
       n, [EvIsRunning (parentAlive e)])
  | AtFinal =>
      (* self.updateBoundingBox(); return *)
      match updateBoundingBox (startTime t) (bboxFile e) n with
      | (Ok updated, n') =>
          (set_pc (Exited (Ok tt)) t, n', [EvCheck true (Ok updated)])
      | (Raise ex, n') =>
          (set_pc (Exited (leave_run ex)) t, n', [EvCheck true (Raise ex)])
      | (Hang, n') => (t, n', [])
      end
  | Exited _ => (t, n, [])
  end.

(** ** The node, its surroundings and the watcher together *)

Record State : Type := {
  node : Node;
  env : Env;
  bboxThread : option Thread;
  log : list event
}.

Definition set_thread (t : option Thread) (s : State) : State :=
  {| node := node s; env := env s; bboxThread := t; log := log s |}.

Definition set_env (e : Env) (s : State) : State :=
  {| node := node s; env := e; bboxThread := bboxThread s; log := log s |}.

Definition emit (ev : event) (s : State) : State :=
  {| node := node s; env := env s; bboxThread := bboxThread s;
     log := log s ++ [ev] |}.

Definition tick (s : State) : State :=
  match bboxThread s with
  | None => s
  | Some t =>
      let '(t', n', evs) := run_step (env s) t (node s) in
      {| node := n'; env := env s; bboxThread := Some t';
         log := log s ++ evs |}
  end.

Definition exec_action (a : action) (s : State) : State :=
  match a with
  | Tick => tick s
  | SetFile f =>
      set_env {| bboxFile := f; clock := clock (env s);
                 parentAlive := parentAlive (env s) |} s
  | SetClock q =>
      set_env {| bboxFile := bboxFile (env s); clock := q;
                 parentAlive := parentAlive (env s) |} s
  | SetAlive l =>
      set_env {| bboxFile := bboxFile (env s); clock := clock (env s);
                 parentAlive := l |} s
  | StopRequest => set_thread (option_map stopRequest (bboxThread s)) s
  end.

Definition exec (sch : list action) (s : State) : State :=
  fold_left (fun s a => exec_action a s) sch s.

(** The thread takes its next step while the outside is [e]. *)
Definition tick_in (e : Env) (s : State) : State := tick (set_env e s).

Definition thread_pc (s : State) : option pc :=
  option_map at_pc (bboxThread s).

Definition exited (s : State) : bool :=
  match thread_pc s with Some (Exited _) => true | _ => false end.

(** ** [boundingBoxMonitor] *)

(** [bboxThread = BoundingBoxThread(node, checkOnce)]. *)
Definition create (once : bool) : ST State unit :=
  modify (fun s => emit EvCreate
                     (set_thread (Some (BoundingBoxThread once)) s)).

(** [bboxThread.start()]: a thread can be started once. *)
Definition start : ST State unit :=
  fun s =>
    match bboxThread s with
    | Some t =>
        match at_pc t with
        | Created =>
            (Ok tt, emit EvStart (set_thread (Some (set_pc Started t)) s))
        | _ => (Raise RuntimeError, s)
        end
    | None => (Raise (OtherError "AttributeError"), s)
    end.

(** [bboxThread.stopRequest()], called by the guard. *)
Definition request_stop : ST State unit :=
  modify (fun s => emit EvStopRequest (exec_action StopRequest s)).

(** Steps of the watcher that are always enough for it to leave [run]
    once its stop flag is set. *)
Definition drain : list action := repeat Tick 5.

(** [bboxThread.join()].  [waiting] is what happens while the caller is
    blocked; the thread is then given the steps that [run] needs after
    a stop request.  [join] has not returned when the thread is still
    in [run] after that. *)
Definition join (waiting : list action) : ST State unit :=
  fun s =>
    match thread_pc s with
    | None => (Raise (OtherError "AttributeError"), s)
    | Some Created => (Raise RuntimeError, s)
    | Some _ =>
        let s' := exec (waiting ++ drain) s in
        if exited s' then (Ok tt, emit EvJoin s') else (Hang, s')
    end.

(** The wrapped operation, [super(Meshing, self).processChunk(chunk)]:
    what happens around the watcher while it runs, and its outcome. *)
Record Body (A : Type) : Type := {
  during : list action;
  outcome : result A
}.

Definition body_run {A} (b : Body A) : ST State A :=
  fun s =>
    let s' := exec (during b) (emit EvBodyBegin s) in
    match outcome b with
    | Hang => (Hang, s')
    | r => (r, emit EvBodyEnd s')
    end.

(** [with boundingBoxMonitor(node, checkOnce): body].  The decorator
    [contextmanager] resumes the generator at its [yield] with the
    outcome of the body, so the body stands where [yield] is. *)
Definition boundingBoxMonitor {A} (once : bool) (body : ST State A)
    (waiting : list action) : ST State A :=
  (modify (set_thread None) ;;
   try_finally
     (u <- gets (fun s => useBoundingBox (node s)) ;;
      (if negb u then (create once ;; start) else ret tt) ;;
      body)
     (t <- gets bboxThread ;;
      match t with
      | Some _ => request_stop ;; join waiting
      | None => ret tt
      end))%st.

(** [Meshing.processChunk]. *)
Definition processChunk {A} (b : Body A) (waiting : list action)
  : ST State A :=
  boundingBoxMonitor false (body_run b) waiting.

(** ** Predicates on checks and states used in the proofs *)

(** The four ways a check can end. *)
Inductive check_outcome (n : Node) : result bool * Node -> Prop :=
| CheckNotReady : check_outcome n (Ok false, n)
| CheckBadToken : check_outcome n (Raise ValueError, n)
| CheckShort n' :
    automaticBBoxValid n' = automaticBBoxValid n ->
    check_outcome n (Raise IndexError, n')
| CheckApplied n' :
    automaticBBoxValid n' = true ->
    check_outcome n (Ok true, n').

(** No last check yet, or one and the thread has left [run]. *)
Definition one_final (s : State) : Prop :=
  finals (log s) = 0 \/ (finals (log s) = 1 /\ exited s = true).

(** A started thread whose stop flag is set. *)
Definition stopping (s : State) : Prop :=
  exists t, bboxThread s = Some t /\ stopFlag t = true
            /\ at_pc t <> Created.

Definition rank_of (s : State) : nat :=
  match thread_pc s with Some p => rank p | None => 0 end.

(** A thread that has been started. *)
Definition launched (s : State) : Prop :=
  exists t, bboxThread s = Some t /\ at_pc t <> Created.

(** A single-shot thread: before its check with the history [l0], or
    out of [run] with one check added. *)
Definition once_shape (l0 : list event) (s : State) : Prop :=
  exists t,
    bboxThread s = Some t /\ checkOnce t = true
    /\ (((at_pc t = Started \/ at_pc t = AtCheck) /\ log s = l0)
        \/ (exists r o, at_pc t = Exited o
                        /\ log s = l0 ++ [EvCheck false r])).

End Watcher.

(** ** An instance of [float] to run the definitions

    Unsigned decimal integer literals, read as the integer they denote;
    every other token is rejected.  Python's [float] reads such a
    literal as the same number and rejects an alphabetic word other than
    the spellings of infinity and NaN, so the examples below only use
    tokens of these two kinds. *)
Module Digits.

Definition digit_of (c : ascii) : option Z :=
  let n := N_of_ascii c in
  if ((48 <=? n) && (n <=? 57))%N then Some (Z.of_N (n - 48)) else None.

Fixpoint digits_from (acc : Z) (s : string) : option Z :=
  match s with
  | EmptyString => Some acc
  | String c s' =>
      match digit_of c with
      | Some d => digits_from (10 * acc + d)%Z s'
      | None => None
      end
  end.

Definition float (s : string) : option Z :=
  match s with
  | EmptyString => None
  | String _ _ => digits_from 0%Z s
  end.

Definition vec0 : Vec3 Z := {| x := 0%Z; y := 0%Z; z := 0%Z |}.
Definition vec1 : Vec3 Z := {| x := 1%Z; y := 1%Z; z := 1%Z |}.

(** The default values of the descriptor, custom bounding box off. *)
Definition node0 : Node Z :=
  {| useBoundingBox := false;
     boundingBox := {| bboxTranslation := vec0; bboxRotation := vec0;
                       bboxScale := vec1 |};
     automaticBBoxValid := false |}.

Definition lines (l : list string) : string :=
  String.concat (String (ascii_of_nat 10) EmptyString) l.

Definition nine : string :=
  lines ["10"; "20"; "30"; "40"; "50"; "60"; "70"; "80"; "90"]%string.
Definition eight : string :=
  lines ["10"; "20"; "30"; "40"; "50"; "60"; "70"; "80"]%string.
Definition ten : string :=
  lines ["10"; "20"; "30"; "40"; "50"; "60"; "70"; "80"; "90"; "100"]%string.
Definition bad : string :=
  lines ["10"; "20"; "abc"; "40"; "50"; "60"; "70"; "80"; "90"]%string.

Definition file (t : Q) (text : string) : option FileStat :=
  Some {| mtime := t; content := text |}.

(** A watcher in continuous mode that entered [run] at time 5 and is
    about to check, with the file [f] in place. *)
Definition polling (f : option FileStat) : State Z :=
  {| node := node0;
     env := {| bboxFile := f; clock := 7; parentAlive := Running |};
     bboxThread :=
       Some (set_pc AtCheck (set_startTime 5 (BoundingBoxThread false)));
     log := [] |}.

(** A watcher that has just been started, at time 5. *)
Definition started (once : bool) (f : option FileStat) : State Z :=
  {| node := node0;
     env := {| bboxFile := f; clock := 5; parentAlive := Running |};
     bboxThread := Some (set_pc Started (BoundingBoxThread once));
     log := [] |}.

(** A watcher in continuous mode that entered [run] at time 5, has
    been asked to stop and is in [wait]. *)
Definition waiting_stopped (f : option FileStat) : State Z :=
  {| node := node0;
     env := {| bboxFile := f; clock := 7; parentAlive := Running |};
     bboxThread :=
       Some (stopRequest
               (set_pc AtWait (set_startTime 5 (BoundingBoxThread false))));
     log := [] |}.

(** The node before [processChunk], with the file [f] in place. *)
Definition idle (manual : bool) (f : option FileStat) : State Z :=
  {| node := {| useBoundingBox := manual;
                boundingBox := boundingBox node0;
                automaticBBoxValid := false |};
     env := {| bboxFile := f; clock := 5; parentAlive := Running |};
     bboxThread := None;
     log := [] |}.

End Digits.

(** ** Measures and classes of schedules for the properties below *)

(** Number of checks, of the loop or last, in a history. *)
Definition checks (l : list event) : nat :=
  List.length (filter is_check l).

(** Checks that [run] can still make, at most, once the stop flag is
    set. *)
Definition budget (p : pc) : nat :=
  match p with
  | Created | Started | AtCheck => 2
  | AtWait | AtLive | AtFinal => 1
  | Exited _ => 0
  end.

(** Steps during which no artifact appears and nobody asks to stop. *)
Definition quiet (a : action) : bool :=
  match a with
  | Tick | SetClock _ | SetAlive _ | SetFile None => true
  | SetFile (Some _) | StopRequest => false
  end.

(** Steps that leave the artifact and the owning process alone. *)
Definition steady (a : action) : bool :=
  match a with
  | Tick | SetClock _ | StopRequest => true
  | SetFile _ | SetAlive _ => false
  end.

(** Steps that do not bring the owning process back. *)
Definition parent_stays_gone (a : action) : bool :=
  match a with
  | SetAlive Running => false
  | _ => true
  end.

(** A text made of whitespace only ([str.isspace], or empty). *)
Fixpoint all_space (s : string) : bool :=
  match s with
  | EmptyString => true
  | String c s' => PyStr.is_space c && all_space s'
  end.

(** Steps that do not put an artifact in place. *)
Definition no_artifact (a : action) : bool :=
  match a with
  | SetFile (Some _) => false
  | _ => true
  end.

Definition budget_of {F : Type} (s : State F) : nat :=
  match thread_pc s with Some p => budget p | None => 0 end.

(** A computation that leaves [useBoundingBox] as it finds it. *)
Definition keeps_manual {F A : Type} (m : ST (State F) A) : Prop :=
  forall s, useBoundingBox (node (snd (m s))) = useBoundingBox (node s).

(** The state in which the wrapped operation begins when the guard has
    created and started a watcher. *)
Definition launch {F : Type} (once : bool) (s : State F) : State F :=
  emit EvBodyBegin
    (emit EvStart
       (set_thread (Some (set_pc Started (BoundingBoxThread once)))
          (emit EvCreate
             (set_thread (Some (BoundingBoxThread once))
                (set_thread None s))))).

(** A single-shot thread that has made no check since the history had
    [c] of them, or has left [run] after one more. *)
Definition once_count {F : Type} (c : nat) (s : State F) : Prop :=
  exists t,
    bboxThread s = Some t /\ checkOnce t = true
    /\ (((at_pc t = Started \/ at_pc t = AtCheck) /\ checks (log s) = c)
        \/ (exists o, at_pc t = Exited o /\ checks (log s) = S c)).








(** ** Properties of [updateBoundingBox] *)

Unset Implicit Arguments.

Lemma Qltb_lt (a b : Q) : Qltb a b = true <-> (a < b)%Q.
Proof.
  unfold Qltb. rewrite Qlt_alt.
  destruct (a ?= b)%Q; split; congruence.
Qed.

Lemma Qltb_ge (a b : Q) : Qltb a b = false <-> (b <= a)%Q.
Proof.
  split; intro H.
  - apply Qnot_lt_le. intro L. apply Qltb_lt in L. congruence.
  - destruct (Qltb a b) eqn:E; [|reflexivity].
    apply Qltb_lt in E. exfalso. exact (Qlt_not_le _ _ E H).
Qed.

Section UpdateFacts.

Variable F : Type.
Variable float : string -> option F.

Lemma map_float_length (ts : list string) (data : list F) :
  map_float float ts = Some data -> List.length data = List.length ts.
Proof.
  revert data. induction ts as [|t ts IH]; simpl; intros data H.
  - inversion H. reflexivity.
  - destruct (float t); [|discriminate].
    destruct (map_float float ts); [|discriminate].
    inversion H. simpl. f_equal. apply IH. reflexivity.
Qed.

Lemma map_float_bad (ts : list string) (tok : string) :
  In tok ts -> float tok = None -> map_float float ts = None.
Proof.
  induction ts as [|t ts IH]; simpl; intros HI HN; [contradiction|].
  destruct HI as [->|HI].
  - rewrite HN. reflexivity.
  - destruct (float t); [|reflexivity]. rewrite (IH HI HN). reflexivity.
Qed.

Lemma update_absent (st : Q) (n : Node F) :
  updateBoundingBox float st None n = (Ok false, n).
Proof. reflexivity. Qed.

Lemma update_stale (st : Q) (f : FileStat) (n : Node F) :
  (mtime f < st)%Q ->
  updateBoundingBox float st (Some f) n = (Ok false, n).
Proof.
  intro H. apply Qltb_lt in H. unfold updateBoundingBox.
  rewrite H. reflexivity.
Qed.

Lemma update_bad (st : Q) (f : FileStat) (n : Node F) :
  (st <= mtime f)%Q ->
  map_float float (tokens_of f) = None ->
  updateBoundingBox float st (Some f) n = (Raise ValueError, n).
Proof.
  intros H HN. apply Qltb_ge in H. unfold updateBoundingBox.
  rewrite H, HN. reflexivity.
Qed.

Lemma update_ok (st : Q) (f : FileStat) (n : Node F) (data : list F) :
  (st <= mtime f)%Q ->
  map_float float (tokens_of f) = Some data ->
  9 <= List.length data ->
  exists n',
    updateBoundingBox float st (Some f) n = (Ok true, n')
    /\ leaves (boundingBox n') = firstn 9 data
    /\ automaticBBoxValid n' = true
    /\ useBoundingBox n' = useBoundingBox n.
Proof.
  intros H HD HL. apply Qltb_ge in H. unfold updateBoundingBox.
  rewrite H, HD.
  do 9 (destruct data as [|? data]; [simpl in HL; lia|]).
  eexists. split; [reflexivity|]. repeat split.
Qed.

Lemma update_short (st : Q) (f : FileStat) (n : Node F) (data : list F) :
  (st <= mtime f)%Q ->
  map_float float (tokens_of f) = Some data ->
  List.length data < 9 ->
  exists n',
    updateBoundingBox float st (Some f) n = (Raise IndexError, n')
    /\ automaticBBoxValid n' = automaticBBoxValid n
    /\ useBoundingBox n' = useBoundingBox n.
Proof.
  intros H HD HL. apply Qltb_ge in H. unfold updateBoundingBox.
  rewrite H, HD.
  do 9 (destruct data as [|? data];
        [eexists; split; [reflexivity|split; reflexivity]|]).
  simpl in HL. lia.
Qed.

Lemma update_cases (st : Q) (file : option FileStat) (n : Node F) :
  check_outcome n (updateBoundingBox float st file n).
Proof.
  destruct file as [f|]; [|rewrite update_absent; constructor].
  destruct (Qlt_le_dec (mtime f) st) as [L|G].
  - rewrite update_stale by exact L. constructor.
  - destruct (map_float float (tokens_of f)) as [data|] eqn:HD.
    + destruct (le_lt_dec 9 (List.length data)) as [HL|HL].
      * destruct (update_ok st f n data G HD HL) as (n' & -> & _ & V & _).
        now constructor.
      * destruct (update_short st f n data G HD HL) as (n' & -> & V & _).
        now constructor.
    + rewrite update_bad by assumption. constructor.
Qed.

End UpdateFacts.

(** ** Properties of the watcher thread *)

Section MachineFacts.

Variable F : Type.
Variable float : string -> option F.

Lemma finals_app (l1 l2 : list event) :
  finals (l1 ++ l2) = finals l1 + finals l2.
Proof. unfold finals. rewrite filter_app, length_app. reflexivity. Qed.

(** A check that is made always ends. *)
Lemma update_returns (st : Q) (file : option FileStat) (n n' : Node F) :
  updateBoundingBox float st file n <> (Hang, n').
Proof.
  intro H. pose proof (update_cases F float st file n) as C.
  rewrite H in C. inversion C.
Qed.

Lemma tick_exited (s : State F) : exited s = true -> tick float s = s.
Proof.
  unfold exited, thread_pc, tick. destruct s as [n e [t|] l]; simpl; auto.
  unfold run_step. destruct (at_pc t); try discriminate.
  intros _. rewrite app_nil_r. reflexivity.
Qed.

(** Nothing but the thread itself moves the thread, writes the node
    or adds to the history. *)
Lemma exec_action_outside (a : action) (s : State F) :
  a <> Tick ->
  node (exec_action float a s) = node s
  /\ log (exec_action float a s) = log s
  /\ thread_pc (exec_action float a s) = thread_pc s.
Proof.
  destruct a; intro H; try congruence; simpl; repeat split.
  unfold thread_pc. simpl. destruct (bboxThread s); reflexivity.
Qed.

Lemma exec_action_exited (a : action) (s : State F) :
  exited s = true ->
  node (exec_action float a s) = node s
  /\ log (exec_action float a s) = log s
  /\ thread_pc (exec_action float a s) = thread_pc s.
Proof.
  intro E. destruct a; try (apply exec_action_outside; discriminate).
  simpl. rewrite tick_exited by exact E. repeat split.
Qed.

(** Once the thread has left [run], nothing changes the node, the
    history or the thread's position any more. *)
Lemma exec_exited (sch : list action) (s : State F) :
  exited s = true ->
  node (exec float sch s) = node s
  /\ log (exec float sch s) = log s
  /\ thread_pc (exec float sch s) = thread_pc s.
Proof.
  revert s. induction sch as [|a sch IH]; intros s E; [repeat split|].
  simpl. destruct (exec_action_exited a s E) as (N & L & P).
  assert (E' : exited (exec_action float a s) = true)
    by (unfold exited in *; rewrite P; exact E).
  destruct (IH _ E') as (N' & L' & P').
  fold (exec float sch (exec_action float a s)).
  rewrite N', L', P'. auto.
Qed.

Lemma exec_app (sch1 sch2 : list action) (s : State F) :
  exec float (sch1 ++ sch2) s = exec float sch2 (exec float sch1 s).
Proof. unfold exec. apply fold_left_app. Qed.

(** *** At most one last check *)

Lemma tick_one_final (s : State F) :
  one_final s -> one_final (tick float s).
Proof.
  intros [Z|[O E]]; [|rewrite tick_exited by exact E; right; auto].
  unfold one_final, tick, exited, thread_pc.
  destruct (bboxThread s) as [t|] eqn:T; [|left; exact Z].
  unfold run_step.
  destruct (at_pc t) eqn:P; simpl;
    try (destruct (updateBoundingBox float (startTime t)
                     (bboxFile (env s)) (node s)) as [[u|ex|] n']);
    simpl; rewrite ?finals_app, ?Z, ?app_nil_r; simpl; auto.
Qed.

Lemma exec_action_one_final (a : action) (s : State F) :
  one_final s -> one_final (exec_action float a s).
Proof.
  intro I. destruct a; [apply tick_one_final; exact I| ..];
    unfold one_final, exited, thread_pc in *; simpl;
    try destruct (bboxThread s); exact I.
Qed.

Lemma exec_one_final (sch : list action) (s : State F) :
  one_final s -> one_final (exec float sch s).
Proof.
  revert s. induction sch as [|a sch IH]; intros s I; [exact I|].
  simpl. apply IH, exec_action_one_final, I.
Qed.

(** *** The history only grows, by events of the watcher *)

Lemma tick_log (s : State F) :
  exists d, log (tick float s) = log s ++ d
            /\ forallb is_watcher_event d = true.
Proof.
  unfold tick. destruct (bboxThread s) as [t|];
    [|exists []; rewrite app_nil_r; auto].
  unfold run_step.
  destruct (at_pc t);
    try (destruct (updateBoundingBox float (startTime t)
                     (bboxFile (env s)) (node s)) as [[u|ex|] n']);
    simpl; eexists; split; reflexivity.
Qed.

Lemma exec_log (sch : list action) (s : State F) :
  exists d, log (exec float sch s) = log s ++ d
            /\ forallb is_watcher_event d = true.
Proof.
  revert s. induction sch as [|a sch IH]; intros s.
  - exists []. rewrite app_nil_r. auto.
  - simpl. destruct (IH (exec_action float a s)) as (d & L & W).
    fold (exec float sch (exec_action float a s)). rewrite L.
    assert (A : exists d0, log (exec_action float a s) = log s ++ d0
                           /\ forallb is_watcher_event d0 = true).
    { destruct a; try (exists []; rewrite app_nil_r; split; reflexivity).
      apply tick_log. }
    destruct A as (d0 & L0 & W0). exists (d0 ++ d).
    rewrite L0, <- app_assoc, forallb_app, W0, W. auto.
Qed.

(** *** After a stop request the thread leaves [run] *)

Lemma exec_action_stopping (a : action) (s : State F) :
  stopping s -> stopping (exec_action float a s).
Proof.
  intros (t & T & Fl & P).
  destruct a; simpl; unfold stopping; simpl;
    try (exists t; auto; fail).
  - unfold tick. rewrite T. unfold run_step.
    destruct (at_pc t) eqn:E;
      try (destruct (updateBoundingBox float (startTime t)
                       (bboxFile (env s)) (node s)) as [[u|ex|] n']);
      simpl; eexists; (split; [reflexivity|]); simpl;
      rewrite ?E; (split; [exact Fl|]); try discriminate; try congruence;
      try (rewrite Fl; discriminate);
      try (destruct (parentAlive (env s)); discriminate).
    destruct (u || checkOnce t); discriminate.
  - rewrite T. simpl. eexists. split; [reflexivity|]. simpl. auto.
Qed.

Lemma exec_stopping (sch : list action) (s : State F) :
  stopping s -> stopping (exec float sch s).
Proof.
  revert s. induction sch as [|a sch IH]; intros s I; [exact I|].
  simpl. apply IH, exec_action_stopping, I.
Qed.

Lemma tick_rank (s : State F) :
  stopping s -> rank_of (tick float s) <= pred (rank_of s).
Proof.
  intros (t & T & Fl & P). unfold rank_of, thread_pc, tick. rewrite T.
  unfold run_step. simpl.
  destruct (at_pc t) eqn:E; try congruence.
  - simpl. lia.
  - destruct (updateBoundingBox float (startTime t)
                (bboxFile (env s)) (node s)) as [[u|ex|] n'] eqn:U;
      simpl; try lia.
    + destruct (u || checkOnce t); simpl; lia.
    + exfalso. exact (update_returns _ _ _ _ U).
  - simpl. rewrite Fl. simpl. lia.
  - simpl. destruct (parentAlive (env s)); simpl; lia.
  - destruct (updateBoundingBox float (startTime t)
                (bboxFile (env s)) (node s)) as [[u|ex|] n'] eqn:U;
      simpl; try lia.
    exfalso. exact (update_returns _ _ _ _ U).
  - simpl. rewrite E. simpl. lia.
Qed.

Lemma ticks_rank (k : nat) (s : State F) :
  stopping s ->
  rank_of (exec float (repeat Tick k) s) <= rank_of s - k.
Proof.
  revert s. induction k as [|k IH]; intros s I; simpl; [lia|].
  pose proof (tick_rank s I) as R.
  pose proof (IH (tick float s) (exec_action_stopping Tick s I)) as R'.
  fold (exec float (repeat Tick k) (tick float s)). lia.
Qed.

Lemma rank_zero_exited (s : State F) :
  stopping s -> rank_of s = 0 -> exited s = true.
Proof.
  intros (t & T & _ & P). unfold rank_of, exited, thread_pc. rewrite T.
  simpl. destruct (at_pc t); simpl; try discriminate; reflexivity.
Qed.

(** [join] after a stop request returns, whatever happens while the
    caller waits. *)
Lemma drain_exited (waiting : list action) (s : State F) :
  stopping s -> exited (exec float (waiting ++ drain) s) = true.
Proof.
  intro I. rewrite exec_app.
  pose proof (exec_stopping waiting s I) as I'.
  apply rank_zero_exited.
  - apply exec_stopping. exact I'.
  - pose proof (ticks_rank 5 _ I') as R.
    assert (B : rank_of (exec float waiting s) <= 5).
    { destruct I' as (t & T & _ & P). unfold rank_of, thread_pc.
      rewrite T. simpl. destruct (at_pc t); simpl; try lia. congruence. }
    unfold drain. lia.
Qed.

(** *** A started thread stays started; no thread stays no thread *)

Lemma exec_action_launched (a : action) (s : State F) :
  launched s -> launched (exec_action float a s).
Proof.
  intros (t & T & P).
  destruct a; simpl; unfold launched; simpl;
    try (exists t; auto; fail).
  - unfold tick. rewrite T. unfold run_step.
    destruct (at_pc t) eqn:E;
      try (destruct (updateBoundingBox float (startTime t)
                       (bboxFile (env s)) (node s)) as [[u|ex|] n']);
      simpl; eexists; (split; [reflexivity|]); simpl;
      rewrite ?E; try discriminate; try congruence;
      try (destruct (stopFlag t); discriminate);
      try (destruct (parentAlive (env s)); discriminate).
    destruct (u || checkOnce t); discriminate.
  - rewrite T. simpl. eexists. split; [reflexivity|]. simpl. auto.
Qed.

Lemma exec_launched (sch : list action) (s : State F) :
  launched s -> launched (exec float sch s).
Proof.
  revert s. induction sch as [|a sch IH]; intros s I; [exact I|].
  simpl. apply IH, exec_action_launched, I.
Qed.

Lemma exec_no_thread (sch : list action) (s : State F) :
  bboxThread s = None ->
  bboxThread (exec float sch s) = None
  /\ node (exec float sch s) = node s
  /\ log (exec float sch s) = log s.
Proof.
  revert s. induction sch as [|a sch IH]; intros s T; [auto|].
  simpl. fold (exec float sch (exec_action float a s)).
  assert (A : bboxThread (exec_action float a s) = None
              /\ node (exec_action float a s) = node s
              /\ log (exec_action float a s) = log s).
  { destruct a; simpl; unfold tick; rewrite ?T; simpl; auto. }
  destruct A as (T' & N' & L').
  destruct (IH _ T') as (T'' & N'' & L'').
  rewrite T'', N'', L''. auto.
Qed.

(** *** Single-shot mode: one check, then out *)

Lemma exec_action_once_shape (l0 : list event) (a : action) (s : State F) :
  once_shape l0 s -> once_shape l0 (exec_action float a s).
Proof.
  intros (t & T & C & H).
  destruct a; simpl; unfold once_shape; simpl;
    try (exists t; auto; fail).
  - unfold tick. rewrite T. unfold run_step.
    destruct H as [[[P|P] L]|(r & o & P & L)]; rewrite P.
    + eexists. split; [reflexivity|]. simpl.
      split; [exact C|]. left. rewrite app_nil_r. auto.
    + destruct (updateBoundingBox float (startTime t)
                  (bboxFile (env s)) (node s)) as [[u|ex|] n'] eqn:U.
      * eexists. split; [reflexivity|]. simpl. split; [exact C|].
        right. rewrite C, orb_true_r, L. eauto.
      * eexists. split; [reflexivity|]. simpl. split; [exact C|].
        right. rewrite L. eauto.
      * exfalso. exact (update_returns _ _ _ _ U).
    + eexists. split; [reflexivity|]. split; [exact C|]. right.
      simpl. rewrite app_nil_r. eauto.
  - rewrite T. simpl. eexists. split; [reflexivity|]. simpl. auto.
Qed.

Lemma exec_once_shape (l0 : list event) (sch : list action) (s : State F) :
  once_shape l0 s -> once_shape l0 (exec float sch s).
Proof.
  revert s. induction sch as [|a sch IH]; intros s I; [exact I|].
  simpl. apply IH, exec_action_once_shape, I.
Qed.

(** *** The two halves of the guard *)

Lemma try_finally_returns {S A : Type} (m : ST S A) (fin : ST S unit)
    (s s1 s2 : S) (r : result A) :
  m s = (r, s1) -> r <> Hang -> fin s1 = (Ok tt, s2) ->
  try_finally m fin s = (r, s2).
Proof.
  intros M NH Fi. unfold try_finally. rewrite M.
  destruct r; try congruence; rewrite Fi; reflexivity.
Qed.

Lemma emit_launched (ev : event) (s : State F) :
  launched s -> launched (emit ev s).
Proof. intros (t & T & P). exists t. auto. Qed.

(** The [finally] block on a started watcher: the stop request, then
    [join], which returns. *)
Lemma teardown_launched (waiting : list action) (s : State F) :
  launched s ->
  exists s' l2,
    (t <- gets (bboxThread (F:=F)) ;;
     match t with
     | Some _ => request_stop float ;; join float waiting
     | None => ret tt
     end)%st s = (Ok tt, s')
    /\ log s' = log s ++ EvStopRequest :: l2 ++ [EvJoin]
    /\ forallb is_watcher_event l2 = true
    /\ exited s' = true
    /\ node s' = node (exec float (waiting ++ drain)
                         (emit EvStopRequest
                            (exec_action float StopRequest s))).
Proof.
  intros (t & T & P).
  set (s4 := emit EvStopRequest (exec_action float StopRequest s)).
  assert (I : stopping s4).
  { exists (stopRequest t). unfold s4. simpl. rewrite T. auto. }
  pose proof (drain_exited waiting s4 I) as X.
  destruct (exec_log (waiting ++ drain) s4) as (l2 & L & W).
  exists (emit EvJoin (exec float (waiting ++ drain) s4)), l2.
  split.
  - unfold bind, gets, request_stop, modify. rewrite T. fold s4.
    unfold join.
    assert (Pc : thread_pc s4 = Some (at_pc t))
      by (unfold s4, thread_pc; simpl; rewrite T; reflexivity).
    rewrite Pc, X. destruct (at_pc t); congruence.
  - simpl. rewrite L. unfold s4 at 1. simpl.
    rewrite <- !app_assoc. simpl.
    repeat split; try assumption.
Qed.

End MachineFacts.

(** ** The stated properties *)

Section Properties.

Variable F : Type.
Variable float : string -> option F.

(** One check.  In continuous mode, when the watcher checks (in the
    loop or as its last check) and the artifact holds exactly nine
    valid floating-point values and is not older than the start
    baseline, the nine values are written to translation, rotation and
    scale in the documented order, the validity flag is set, and the
    thread leaves [run] normally; [join] then returns, and the flag
    and the nine fields are still as written. *)
Lemma ready_check_applies
    (s : State F) (t : Thread) (f : FileStat) (data : list F)
    (waiting : list action) :
  bboxThread s = Some t ->
  checkOnce t = false ->
  at_pc t = AtCheck \/ at_pc t = AtFinal ->
  bboxFile (env s) = Some f ->
  (startTime t <= mtime f)%Q ->
  map_float float (tokens_of f) = Some data ->
  List.length data = 9 ->
  leaves (boundingBox (node (tick float s))) = data
  /\ automaticBBoxValid (node (tick float s)) = true
  /\ thread_pc (tick float s) = Some (Exited (Ok tt))
  /\ exists s',
       join float waiting (tick float s) = (Ok tt, s')
       /\ leaves (boundingBox (node s')) = data
       /\ automaticBBoxValid (node s') = true.
Proof.
  intros T C P Fi R D L.
  destruct (update_ok F float (startTime t) f (node s) data R D)
    as (n' & U & Lv & V & _); [lia|].
  rewrite <- L, firstn_all in Lv.
  assert (E : node (tick float s) = n'
              /\ thread_pc (tick float s) = Some (Exited (Ok tt))).
  { unfold tick, thread_pc. rewrite T. unfold run_step.
    destruct P as [P|P]; rewrite P, Fi, U; simpl; auto. }
  destruct E as (EN & EP). rewrite EN.
  repeat (split; [assumption|]).
  assert (X : exited (tick float s) = true)
    by (unfold exited; rewrite EP; reflexivity).
  destruct (exec_exited F float (waiting ++ drain) _ X) as (N' & _ & P').
  unfold join. rewrite EP. unfold exited at 1. rewrite P', EP.
  eexists. split; [reflexivity|]. simpl. rewrite N', EN. auto.
Qed.

(** C9.  When some token of the artifact is not a valid
    floating-point literal, the conversion of the token list fails
    before anything is written: the check leaves the node, with its
    nine fields and its validity flag, as it was, and a check of a
    file that is not stale raises [ValueError]. *)
Theorem C9_bad_token_writes_nothing
    (st : Q) (f : FileStat) (n : Node F) (tok : string) :
  In tok (tokens_of f) ->
  float tok = None ->
  snd (updateBoundingBox float st (Some f) n) = n
  /\ ((st <= mtime f)%Q ->
      updateBoundingBox float st (Some f) n = (Raise ValueError, n)).
Proof.
  intros HI HN.
  pose proof (map_float_bad F float _ _ HI HN) as B.
  split.
  - destruct (Qlt_le_dec (mtime f) st) as [L|G].
    + rewrite update_stale by exact L. reflexivity.
    + rewrite update_bad by assumption. reflexivity.
  - intro G. apply update_bad; assumption.
Qed.

(** C10.  A check of an artifact that is not stale and holds more
    than nine tokens, all valid, succeeds: it returns [True], the
    first nine values are in the tree in order, the flag is set, and
    nothing is raised for the extra tokens. *)
Theorem C10_extra_tokens_ignored
    (st : Q) (f : FileStat) (n : Node F) (data : list F) :
  (st <= mtime f)%Q ->
  map_float float (tokens_of f) = Some data ->
  9 < List.length (tokens_of f) ->
  exists n',
    updateBoundingBox float st (Some f) n = (Ok true, n')
    /\ leaves (boundingBox n') = firstn 9 data
    /\ automaticBBoxValid n' = true.
Proof.
  intros R D L.
  rewrite <- (map_float_length F float _ _ D) in L.
  destruct (update_ok F float st f n data R D) as (n' & U & Lv & V & _);
    [lia|].
  exists n'. auto.
Qed.

(** C4.  In continuous mode the baseline is the time at which [run]
    starts.  An artifact whose modification time is strictly before
    it is not applied by the first check: the node is untouched and
    the thread goes on to wait.  At every check, a file that exists
    is turned down as not ready exactly when its modification time is
    strictly before the baseline. *)
Theorem C4_stale_artifact_not_applied
    (s : State F) (t : Thread) (e0 e1 : Env) (f : FileStat) :
  bboxThread s = Some t ->
  checkOnce t = false ->
  at_pc t = Started ->
  bboxFile e1 = Some f ->
  (mtime f < clock e0)%Q ->
  node (tick_in float e1 (tick_in float e0 s)) = node s
  /\ thread_pc (tick_in float e1 (tick_in float e0 s)) = Some AtWait
  /\ log (tick_in float e1 (tick_in float e0 s))
     = log s ++ [EvCheck false (Ok false)]
  /\ (forall st g n,
        fst (updateBoundingBox float st (Some g) n) = Ok false
        <-> (mtime g < st)%Q).
Proof.
  intros T C P Fi L.
  assert (U : updateBoundingBox float (clock e0) (Some f) (node s)
              = (Ok false, node s)) by (apply update_stale; exact L).
  assert (Ready : forall st g n,
             fst (updateBoundingBox float st (Some g) n) = Ok false
             <-> (mtime g < st)%Q).
  { intros st g n. split.
    - intro H. destruct (Qlt_le_dec (mtime g) st) as [Lt|Ge]; [exact Lt|].
      exfalso. destruct (map_float float (tokens_of g)) as [data|] eqn:D.
      + destruct (le_lt_dec 9 (List.length data)) as [HL|HL].
        * destruct (update_ok F float st g n data Ge D HL)
            as (n' & E & _).
          rewrite E in H. discriminate.
        * destruct (update_short F float st g n data Ge D HL)
            as (n' & E & _).
          rewrite E in H. discriminate.
      + rewrite (update_bad F float st g n Ge D) in H. discriminate.
    - intro Lt. rewrite update_stale by exact Lt. reflexivity. }
  assert (S1 : tick_in float e0 s
               = {| node := node s; env := e0;
                    bboxThread :=
                      Some (set_pc AtCheck (set_startTime (clock e0) t));
                    log := log s |}).
  { unfold tick_in, tick. cbn -[updateBoundingBox]. rewrite T.
    unfold run_step. rewrite P, C, app_nil_r. reflexivity. }
  rewrite S1. unfold tick_in, tick, thread_pc, run_step.
  cbn -[updateBoundingBox]. rewrite Fi, U, C.
  repeat (split; [reflexivity|]). exact Ready.
Qed.

(** C5.  When [wait] reports the stop flag, the thread asks whether
    the owning process is running.  If it is, the thread makes one
    more check and leaves [run] whatever the check gives; if it is
    not (or [is_running] raises [NoSuchProcess]), the thread leaves
    [run] at once, with no check and the node untouched.  Nothing
    happens after that. *)
Theorem C5_stop_during_wait
    (s : State F) (t : Thread) (e1 e2 e3 : Env) (sch : list action) :
  bboxThread s = Some t ->
  at_pc t = AtWait ->
  stopFlag t = true ->
  match parentAlive e2 with
  | Running =>
      exists r,
        log (tick_in float e3 (tick_in float e2 (tick_in float e1 s)))
        = log s ++ [EvWait true; EvIsRunning Running; EvCheck true r]
        /\ (r, node (tick_in float e3
                      (tick_in float e2 (tick_in float e1 s))))
           = updateBoundingBox float (startTime t) (bboxFile e3) (node s)
        /\ exited (tick_in float e2 (tick_in float e1 s)) = false
        /\ exited (tick_in float e3
                     (tick_in float e2 (tick_in float e1 s))) = true
  | l =>
      thread_pc (tick_in float e2 (tick_in float e1 s))
      = Some (Exited (Ok tt))
      /\ node (tick_in float e2 (tick_in float e1 s)) = node s
      /\ log (tick_in float e2 (tick_in float e1 s))
         = log s ++ [EvWait true; EvIsRunning l]
  end
  /\ log (exec float sch
            (tick_in float e3 (tick_in float e2 (tick_in float e1 s))))
     = log (tick_in float e3 (tick_in float e2 (tick_in float e1 s)))
  /\ node (exec float sch
             (tick_in float e3 (tick_in float e2 (tick_in float e1 s))))
     = node (tick_in float e3 (tick_in float e2 (tick_in float e1 s))).
Proof.
  intros T P Fl.
  assert (S2 : tick_in float e2 (tick_in float e1 s)
               = {| node := node s; env := e2;
                    bboxThread :=
                      Some (set_pc match parentAlive e2 with
                                   | Running => AtFinal
                                   | _ => Exited (Ok tt)
                                   end t);
                    log := log s ++ [EvWait true;
                                     EvIsRunning (parentAlive e2)] |}).
  { unfold tick_in, tick. simpl. rewrite T. unfold run_step.
    rewrite P. simpl. rewrite Fl. simpl. rewrite <- app_assoc. simpl.
    destruct (parentAlive e2); reflexivity. }
  assert (X : exited (tick_in float e3
                        (tick_in float e2 (tick_in float e1 s))) = true
              /\ (parentAlive e2 = Running ->
                  exists r,
                    log (tick_in float e3
                           (tick_in float e2 (tick_in float e1 s)))
                    = log s ++ [EvWait true; EvIsRunning Running;
                                EvCheck true r]
                    /\ (r, node (tick_in float e3
                                  (tick_in float e2
                                     (tick_in float e1 s))))
                       = updateBoundingBox float (startTime t)
                           (bboxFile e3) (node s))).
  { rewrite S2. unfold tick_in, tick, exited, thread_pc. simpl.
    unfold run_step. destruct (parentAlive e2); simpl.
    - destruct (updateBoundingBox float (startTime t) (bboxFile e3)
                  (node s)) as [[u|ex|] n'] eqn:U; simpl.
      + split; [reflexivity|]. intros _. eexists.
        rewrite <- app_assoc. simpl. split; reflexivity.
      + split; [reflexivity|]. intros _. eexists.
        rewrite <- app_assoc. simpl. split; reflexivity.
      + exfalso. exact (update_returns F float _ _ _ _ U).
    - split; [reflexivity|]. discriminate.
    - split; [reflexivity|]. discriminate. }
  destruct X as (X & R).
  destruct (exec_exited F float sch _ X) as (N' & L' & _).
  split; [|split; assumption].
  destruct (parentAlive e2) eqn:A.
  - destruct (R eq_refl) as (r & Lr & Ur). exists r.
    repeat (split; [assumption|]). split; [|exact X].
    rewrite S2. reflexivity.
  - rewrite S2. repeat split.
  - rewrite S2. repeat split.
Qed.

(** Single-shot mode.  The baseline is the sentinel [-1] and not the
    start time.  The thread makes exactly one check and leaves [run],
    without waiting on the stop flag; an existing artifact whose
    modification time is not below [-1] is accepted however long before
    the start it was written: nine valid values are applied. *)
Lemma single_shot_one_check
    (s : State F) (t : Thread) (e0 e1 : Env) (sch : list action) :
  bboxThread s = Some t ->
  checkOnce t = true ->
  at_pc t = Started ->
  exited (tick_in float e1 (tick_in float e0 s)) = true
  /\ (exists r,
        log (tick_in float e1 (tick_in float e0 s))
        = log s ++ [EvCheck false r]
        /\ (r, node (tick_in float e1 (tick_in float e0 s)))
           = updateBoundingBox float (-1) (bboxFile e1) (node s))
  /\ (log (exec float sch s) = log s
      \/ exists r, log (exec float sch s) = log s ++ [EvCheck false r])
  /\ (forall f data,
        bboxFile e1 = Some f ->
        (-1 <= mtime f)%Q ->
        map_float float (tokens_of f) = Some data ->
        List.length data = 9 ->
        leaves (boundingBox (node (tick_in float e1 (tick_in float e0 s))))
        = data
        /\ automaticBBoxValid
             (node (tick_in float e1 (tick_in float e0 s))) = true).
Proof.
  intros T C P.
  assert (S1 : tick_in float e0 s
               = {| node := node s; env := e0;
                    bboxThread :=
                      Some (set_pc AtCheck (set_startTime (-1) t));
                    log := log s |}).
  { unfold tick_in, tick. cbn -[updateBoundingBox]. rewrite T.
    unfold run_step. rewrite P, C, app_nil_r. reflexivity. }
  assert (S2 : exists r n',
             updateBoundingBox float (-1) (bboxFile e1) (node s) = (r, n')
             /\ exited (tick_in float e1 (tick_in float e0 s)) = true
             /\ node (tick_in float e1 (tick_in float e0 s)) = n'
             /\ log (tick_in float e1 (tick_in float e0 s))
                = log s ++ [EvCheck false r]).
  { rewrite S1. unfold tick_in, tick, exited, thread_pc, run_step.
    cbn -[updateBoundingBox].
    destruct (updateBoundingBox float (-1) (bboxFile e1) (node s))
      as [[u|ex|] n'] eqn:U.
    - exists (Ok u), n'. rewrite C, orb_true_r. repeat split.
    - exists (Raise ex), n'. repeat split.
    - exfalso. exact (update_returns F float _ _ _ _ U). }
  destruct S2 as (r & n' & U & X & N & L).
  split; [exact X|]. split; [exists r; rewrite L, N, U; auto|]. split.
  - assert (I : once_shape (log s) s).
    { exists t. repeat (split; [assumption|]). left. auto. }
    destruct (exec_once_shape F float (log s) sch s I)
      as (t' & _ & _ & [[_ L']|(r' & o & _ & L')]); eauto.
  - intros f data Fi R D Len. rewrite Fi in U.
    destruct (update_ok F float (-1) f (node s) data R D)
      as (n'' & U' & Lv & V & _); [lia|].
    rewrite U in U'. inversion U'; subst n''.
    rewrite N. rewrite <- Len, firstn_all in Lv. auto.
Qed.

(** C8.  [stopRequest] only sets the stop flag: a second request, at
    any point and in any state of the thread, leaves the thread as
    the first one did, and however many requests occur in a run the
    last check is made at most once. *)
Theorem C8_stopRequest_idempotent (s : State F) (sch : list action) :
  finals (log s) = 0 ->
  (forall t, stopRequest (stopRequest t) = stopRequest t)
  /\ exec_action float StopRequest (exec_action float StopRequest s)
     = exec_action float StopRequest s
  /\ exec float (StopRequest :: StopRequest :: sch) s
     = exec float (StopRequest :: sch) s
  /\ finals (log (exec float sch s)) <= 1.
Proof.
  intro Z.
  assert (I2 : exec_action float StopRequest
                 (exec_action float StopRequest s)
               = exec_action float StopRequest s).
  { simpl. unfold set_thread. simpl.
    destruct (bboxThread s); reflexivity. }
  split; [reflexivity|]. split; [exact I2|]. split.
  - simpl. simpl in I2. rewrite I2. reflexivity.
  - assert (I : one_final s) by (left; exact Z).
    destruct (exec_one_final F float sch s I) as [E|[E _]]; lia.
Qed.

(** C2, as the code has it.  A check of an artifact that is not stale
    and is malformed, because a token is not a floating-point literal
    or because there are fewer than nine tokens, raises [ValueError]
    (bad token) or [IndexError] (too few).  [run] catches neither: the
    thread leaves [run] with the exception, no other field of the
    thread changes, and the validity flag is as before.  With a bad
    token the node is not written at all. *)
Theorem C2_malformed_artifact_raises
    (s : State F) (t : Thread) (f : FileStat) :
  bboxThread s = Some t ->
  at_pc t = AtCheck \/ at_pc t = AtFinal ->
  bboxFile (env s) = Some f ->
  (startTime t <= mtime f)%Q ->
  (exists tok, In tok (tokens_of f) /\ float tok = None)
  \/ (exists data, map_float float (tokens_of f) = Some data
                   /\ List.length data < 9) ->
  exists ex,
    (ex = ValueError \/ ex = IndexError)
    /\ bboxThread (tick float s) = Some (set_pc (Exited (Raise ex)) t)
    /\ automaticBBoxValid (node (tick float s))
       = automaticBBoxValid (node s)
    /\ ((exists tok, In tok (tokens_of f) /\ float tok = None) ->
        ex = ValueError /\ node (tick float s) = node s)
    /\ ((exists data, map_float float (tokens_of f) = Some data
                      /\ List.length data < 9) ->
        ex = IndexError).
Proof.
  intros T P Fi R [(tok & HI & HN)|(data & D & L)].
  - pose proof (map_float_bad F float _ _ HI HN) as B.
    pose proof (update_bad F float _ f (node s) R B) as U.
    exists ValueError. unfold tick. rewrite T. unfold run_step.
    destruct P as [P|P]; rewrite P, Fi, U; cbn;
      (split; [left; reflexivity|]); (split; [reflexivity|]);
      (split; [reflexivity|]);
      (split; [intros _; split; reflexivity|]);
      intros (data & D & _); rewrite B in D; discriminate.
  - destruct (update_short F float _ f (node s) data R D L)
      as (n' & U & V & _).
    exists IndexError. unfold tick. rewrite T. unfold run_step.
    destruct P as [P|P]; rewrite P, Fi, U; cbn;
      (split; [right; reflexivity|]); (split; [reflexivity|]);
      (split; [exact V|]);
      (split; [intros (tok & HI & HN);
               rewrite (map_float_bad F float _ _ HI HN) in D;
               discriminate|]);
      intros _; reflexivity.
Qed.


(** C3.  When the guard creates a watcher, it starts it before the
    wrapped operation begins; after the operation has ended, whether
    it returned or raised (a cancellation is an exception raised in
    it), the guard requests the stop and then joins the watcher,
    which has left [run] by then; the guard ends as the operation
    did, with its value or its exception. *)
Theorem C3_guard_brackets_operation
    (A : Type) (s : State F) (once : bool) (b : Body A)
    (waiting : list action) :
  useBoundingBox (node s) = false ->
  outcome b <> Hang ->
  exists s' l1 l2,
    boundingBoxMonitor float once (body_run float b) waiting s
    = (outcome b, s')
    /\ log s' = log s ++ [EvCreate; EvStart; EvBodyBegin] ++ l1
                      ++ [EvBodyEnd; EvStopRequest] ++ l2 ++ [EvJoin]
    /\ forallb is_watcher_event (l1 ++ l2) = true
    /\ exited s' = true
    /\ processChunk float b waiting s
       = boundingBoxMonitor float false (body_run float b) waiting s.
Proof.
  intros U NH.
  set (s1 := emit EvBodyBegin
               (emit EvStart
                  (set_thread
                     (Some (set_pc Started (BoundingBoxThread once)))
                     (emit EvCreate
                        (set_thread (Some (BoundingBoxThread once))
                           (set_thread None s)))))).
  assert (I1 : launched s1).
  { eexists. split; [reflexivity|]. discriminate. }
  destruct (exec_log F float (during b) s1) as (l1 & L1 & W1).
  set (s3 := emit EvBodyEnd (exec float (during b) s1)).
  assert (I3 : launched s3)
    by (apply emit_launched, exec_launched, I1).
  destruct (teardown_launched F float waiting s3 I3)
    as (s' & l2 & Fi & L2 & W2 & X & _).
  exists s', l1, l2. split; [|split; [|split; [|split]]].
  - unfold boundingBoxMonitor. unfold bind at 1. unfold modify at 1.
    apply try_finally_returns with (s1 := s3); [|exact NH|exact Fi].
    unfold bind, gets, create, start, modify, ret, body_run.
    cbn -[exec]. rewrite U. cbn -[exec]. fold s1. fold s3.
    destruct (outcome b); congruence.
  - rewrite L2. unfold s3. simpl. rewrite L1. unfold s1. simpl.
    rewrite <- !app_assoc. reflexivity.
  - rewrite forallb_app, W1, W2. reflexivity.
  - exact X.
  - reflexivity.
Qed.

(** C7.  When the node uses a manual bounding box, the guard creates
    no watcher: it does what the wrapped operation alone does, there
    is no thread afterwards, and the node is as it was before. *)
Theorem C7_manual_bounding_box_no_watcher
    (A : Type) (s : State F) (once : bool) (b : Body A)
    (waiting : list action) :
  useBoundingBox (node s) = true ->
  boundingBoxMonitor float once (body_run float b) waiting s
  = body_run float b (set_thread None s)
  /\ bboxThread
       (snd (boundingBoxMonitor float once (body_run float b) waiting s))
     = None
  /\ node (snd (boundingBoxMonitor float once (body_run float b) waiting s))
     = node s
  /\ log (snd (boundingBoxMonitor float once (body_run float b) waiting s))
     = log s ++ EvBodyBegin ::
         match outcome b with Hang => [] | _ => [EvBodyEnd] end.
Proof.
  intro U.
  destruct (exec_no_thread F float (during b)
              (emit EvBodyBegin (set_thread None s)) eq_refl)
    as (T & N & L).
  assert (E : boundingBoxMonitor float once (body_run float b) waiting s
              = body_run float b (set_thread None s)).
  { unfold boundingBoxMonitor, try_finally, bind, gets, modify, ret.
    cbn -[body_run]. rewrite U. cbn -[body_run].
    unfold body_run. destruct (outcome b); cbn -[exec];
      rewrite ?T; reflexivity. }
  rewrite E. split; [reflexivity|].
  unfold body_run. destruct (outcome b); cbn -[exec];
    rewrite T, N, L; simpl; rewrite <- ?app_assoc; auto.
Qed.

End Properties.

(** ** The properties at concrete inputs *)

Example ready_check_applies_at_nine :
  leaves (boundingBox
            (node (tick Digits.float
                     (Digits.polling (Digits.file 6 Digits.nine)))))
  = [10; 20; 30; 40; 50; 60; 70; 80; 90]%Z
  /\ automaticBBoxValid
       (node (tick Digits.float
                (Digits.polling (Digits.file 6 Digits.nine)))) = true.
Proof.
  destruct (ready_check_applies Z Digits.float
              (Digits.polling (Digits.file 6 Digits.nine))
              (set_pc AtCheck (set_startTime 5 (BoundingBoxThread false)))
              {| mtime := 6; content := Digits.nine |}
              [10; 20; 30; 40; 50; 60; 70; 80; 90]%Z
              [SetClock 9; Tick])
    as (L & V & _); try reflexivity.
  - left. reflexivity.
  - vm_compute. discriminate.
  - split; assumption.
Defined.

Lemma C9_witness :
  snd (updateBoundingBox Digits.float 5
         (Digits.file 6 Digits.bad) Digits.node0) = Digits.node0.
Proof.
  apply (C9_bad_token_writes_nothing Z Digits.float 5
           {| mtime := 6; content := Digits.bad |} Digits.node0 "abc").
  - vm_compute. tauto.
  - reflexivity.
Defined.

Lemma C10_witness :
  exists n',
    updateBoundingBox Digits.float 5 (Digits.file 6 Digits.ten) Digits.node0
    = (Ok true, n')
    /\ leaves (boundingBox n')
       = [10; 20; 30; 40; 50; 60; 70; 80; 90]%Z
    /\ automaticBBoxValid n' = true.
Proof.
  apply (C10_extra_tokens_ignored Z Digits.float 5
           {| mtime := 6; content := Digits.ten |} Digits.node0
           [10; 20; 30; 40; 50; 60; 70; 80; 90; 100]%Z).
  - vm_compute. discriminate.
  - reflexivity.
  - vm_compute. lia.
Defined.

(** An artifact of eight numbers, not stale: the check raises
    [IndexError] out of [run] after it has written eight fields. *)
Lemma C2_counterexample :
  ~ (forall (s : State Z) (t : Thread) (f : FileStat),
       bboxThread s = Some t ->
       at_pc t = AtCheck ->
       bboxFile (env s) = Some f ->
       (startTime t <= mtime f)%Q ->
       List.length (tokens_of f) <> 9 ->
       (forall ex, thread_pc (tick Digits.float s)
                   <> Some (Exited (Raise ex)))
       /\ boundingBox (node (tick Digits.float s)) = boundingBox (node s)).
Proof.
  intro H.
  destruct (H (Digits.polling (Digits.file 6 Digits.eight))
              (set_pc AtCheck (set_startTime 5 (BoundingBoxThread false)))
              {| mtime := 6; content := Digits.eight |}
              eq_refl eq_refl eq_refl) as (H1 & H2).
  - vm_compute. discriminate.
  - vm_compute. discriminate.
  - apply (H1 IndexError). reflexivity.
Qed.

Lemma C2_witness :
  exists ex,
    (ex = ValueError \/ ex = IndexError)
    /\ bboxThread (tick Digits.float
                     (Digits.polling (Digits.file 6 Digits.eight)))
       = Some (set_pc (Exited (Raise ex))
                 (set_pc AtCheck (set_startTime 5 (BoundingBoxThread false))))
    /\ automaticBBoxValid
         (node (tick Digits.float
                  (Digits.polling (Digits.file 6 Digits.eight))))
       = false.
Proof.
  destruct (C2_malformed_artifact_raises Z Digits.float
              (Digits.polling (Digits.file 6 Digits.eight))
              (set_pc AtCheck (set_startTime 5 (BoundingBoxThread false)))
              {| mtime := 6; content := Digits.eight |}
              eq_refl (or_introl eq_refl) eq_refl)
    as (ex & E & T & V & _).
  - vm_compute. discriminate.
  - right. exists [10; 20; 30; 40; 50; 60; 70; 80]%Z.
    split; [reflexivity|]. vm_compute. lia.
  - exists ex. auto.
Defined.

Lemma C3_witness :
  exists s' l1 l2,
    boundingBoxMonitor Digits.float false
      (body_run Digits.float
         {| during := [Tick; Tick]; outcome := Raise KeyboardInterrupt |})
      [] (Digits.idle false (Digits.file 6 Digits.nine))
    = (@Raise unit KeyboardInterrupt, s')
    /\ log s' = [EvCreate; EvStart; EvBodyBegin] ++ l1
                ++ [EvBodyEnd; EvStopRequest] ++ l2 ++ [EvJoin]
    /\ exited s' = true.
Proof.
  destruct (C3_guard_brackets_operation Z Digits.float unit
              (Digits.idle false (Digits.file 6 Digits.nine)) false
              {| during := [Tick; Tick]; outcome := Raise KeyboardInterrupt |}
              [] eq_refl)
    as (s' & l1 & l2 & E & L & _ & X & _).
  - discriminate.
  - exists s', l1, l2. auto.
Defined.

Lemma C4_witness :
  node (tick_in Digits.float
          (env (Digits.started false (Digits.file 4 Digits.nine)))
          (tick_in Digits.float
             (env (Digits.started false (Digits.file 4 Digits.nine)))
             (Digits.started false (Digits.file 4 Digits.nine))))
  = Digits.node0
  /\ thread_pc
       (tick_in Digits.float
          (env (Digits.started false (Digits.file 4 Digits.nine)))
          (tick_in Digits.float
             (env (Digits.started false (Digits.file 4 Digits.nine)))
             (Digits.started false (Digits.file 4 Digits.nine))))
     = Some AtWait.
Proof.
  destruct (C4_stale_artifact_not_applied Z Digits.float
              (Digits.started false (Digits.file 4 Digits.nine))
              (set_pc Started (BoundingBoxThread false))
              (env (Digits.started false (Digits.file 4 Digits.nine)))
              (env (Digits.started false (Digits.file 4 Digits.nine)))
              {| mtime := 4; content := Digits.nine |}
              eq_refl eq_refl eq_refl eq_refl)
    as (N & P & _).
  - reflexivity.
  - split; assumption.
Defined.

Lemma C5_witness :
  exists r,
    log (tick_in Digits.float
           (env (Digits.waiting_stopped (Digits.file 6 Digits.nine)))
           (tick_in Digits.float
              (env (Digits.waiting_stopped None))
              (tick_in Digits.float
                 (env (Digits.waiting_stopped None))
                 (Digits.waiting_stopped None))))
    = [EvWait true; EvIsRunning Running; EvCheck true r].
Proof.
  destruct (C5_stop_during_wait Z Digits.float
              (Digits.waiting_stopped None)
              (stopRequest
                 (set_pc AtWait (set_startTime 5 (BoundingBoxThread false))))
              (env (Digits.waiting_stopped None))
              (env (Digits.waiting_stopped None))
              (env (Digits.waiting_stopped (Digits.file 6 Digits.nine)))
              [] eq_refl eq_refl eq_refl)
    as ((r & L & _) & _).
  exists r. exact L.
Defined.

(** C6.  Single-shot mode is meant to take an artifact that already
    exists, whatever its age (the docstring of [boundingBoxMonitor]: the
    file is checked only once and is not ignored if already created).
    The check still compares the modification time with the sentinel
    [-1]: a valid artifact dated two seconds before the epoch is turned
    down by the single check, and the node keeps its defaults. *)
Theorem C6_pre_epoch_artifact_rejected :
  updateBoundingBox Digits.float (-1) (Digits.file (-2) Digits.nine)
    Digits.node0 = (Ok false, Digits.node0)
  /\ exited (exec Digits.float [Tick; Tick]
               (Digits.started true (Digits.file (-2) Digits.nine))) = true
  /\ log (exec Digits.float [Tick; Tick]
            (Digits.started true (Digits.file (-2) Digits.nine)))
     = [EvCheck false (Ok false)]
  /\ node (exec Digits.float [Tick; Tick]
             (Digits.started true (Digits.file (-2) Digits.nine)))
     = Digits.node0
  /\ ~ (forall (f : FileStat) (data : list Z),
          map_float Digits.float (tokens_of f) = Some data ->
          List.length data = 9 ->
          automaticBBoxValid
            (node (exec Digits.float [Tick; Tick]
                     (Digits.started true (Some f)))) = true).
Proof.
  repeat (split; [reflexivity|]).
  intro H.
  specialize (H {| mtime := -2; content := Digits.nine |}
                [10; 20; 30; 40; 50; 60; 70; 80; 90]%Z eq_refl eq_refl).
  vm_compute in H. discriminate.
Qed.

(** A file written four seconds before the watcher starts is taken by
    the single check of single-shot mode. *)
Example single_shot_accepts_old_file :
  exited (tick_in Digits.float
            (env (Digits.started true (Digits.file 1 Digits.nine)))
            (tick_in Digits.float
               (env (Digits.started true (Digits.file 1 Digits.nine)))
               (Digits.started true (Digits.file 1 Digits.nine)))) = true
  /\ leaves (boundingBox
               (node (tick_in Digits.float
                        (env (Digits.started true (Digits.file 1 Digits.nine)))
                        (tick_in Digits.float
                           (env (Digits.started true
                                   (Digits.file 1 Digits.nine)))
                           (Digits.started true
                              (Digits.file 1 Digits.nine))))))
     = [10; 20; 30; 40; 50; 60; 70; 80; 90]%Z.
Proof.
  destruct (single_shot_one_check Z Digits.float
              (Digits.started true (Digits.file 1 Digits.nine))
              (set_pc Started (BoundingBoxThread true))
              (env (Digits.started true (Digits.file 1 Digits.nine)))
              (env (Digits.started true (Digits.file 1 Digits.nine)))
              [] eq_refl eq_refl eq_refl)
    as (X & _ & _ & Acc).
  split; [exact X|].
  destruct (Acc {| mtime := 1; content := Digits.nine |}
                [10; 20; 30; 40; 50; 60; 70; 80; 90]%Z eq_refl) as (L & _).
  - vm_compute. discriminate.
  - reflexivity.
  - reflexivity.
  - exact L.
Qed.

Lemma C7_witness :
  node (snd (boundingBoxMonitor Digits.float false
               (body_run Digits.float
                  {| during := [Tick; SetFile (Digits.file 6 Digits.nine);
                                Tick; Tick];
                     outcome := Ok tt |})
               [Tick] (Digits.idle true (Digits.file 6 Digits.nine))))
  = node (Digits.idle true (Digits.file 6 Digits.nine)).
Proof.
  apply (C7_manual_bounding_box_no_watcher Z Digits.float unit
           (Digits.idle true (Digits.file 6 Digits.nine)) false
           {| during := [Tick; SetFile (Digits.file 6 Digits.nine);
                         Tick; Tick];
              outcome := Ok tt |}
           [Tick] eq_refl).
Defined.

Lemma C8_witness :
  finals (log (exec Digits.float
                 [Tick; Tick; StopRequest; StopRequest; Tick; StopRequest;
                  Tick; Tick; StopRequest; Tick; Tick]
                 (Digits.started false None))) <= 1.
Proof.
  apply (C8_stopRequest_idempotent Z Digits.float
           (Digits.started false None)
           [Tick; Tick; StopRequest; StopRequest; Tick; StopRequest;
            Tick; Tick; StopRequest; Tick; Tick] eq_refl).
Defined.

(** ** The code on sample inputs *)

Example tokens_trailing_newline :
  tokens_of {| mtime := 6;
               content := Digits.lines [Digits.nine; ""; ""]%string |}
  = ["10"; "20"; "30"; "40"; "50"; "60"; "70"; "80"; "90"]%string.
Proof. reflexivity. Qed.

Example tokens_blank_line :
  PyStr.splitlines (PyStr.strip (Digits.lines [" 1"; ""; "2 "; ""]%string))
  = ["1"; ""; "2"]%string.
Proof. reflexivity. Qed.

(** Eight numbers: eight fields are written before [data[8]] raises. *)
Example eight_values_partial_write :
  updateBoundingBox Digits.float 5 (Digits.file 6 Digits.eight) Digits.node0
  = (Raise IndexError,
     {| useBoundingBox := false;
        boundingBox :=
          {| bboxTranslation := {| x := 10; y := 20; z := 30 |};
             bboxRotation := {| x := 40; y := 50; z := 60 |};
             bboxScale := {| x := 70; y := 80; z := 1 |} |}%Z;
        automaticBBoxValid := false |}).
Proof. reflexivity. Qed.

(** The operation is interrupted while the watcher has already found
    the artifact: the guard still stops and joins the watcher and ends
    with the interruption. *)
Example guard_on_interrupted_operation :
  let r := boundingBoxMonitor Digits.float false
             (body_run Digits.float
                {| during := [Tick; Tick];
                   outcome := @Raise unit KeyboardInterrupt |})
             [] (Digits.idle false (Digits.file 6 Digits.nine)) in
  fst r = Raise KeyboardInterrupt
  /\ log (snd r) = [EvCreate; EvStart; EvBodyBegin; EvCheck false (Ok true);
                    EvBodyEnd; EvStopRequest; EvJoin]
  /\ automaticBBoxValid (node (snd r)) = true.
Proof. vm_compute. repeat split. Qed.

(** The artifact appears just before the stop request: the last check
    applies it. *)
Example last_check_applies :
  let s := exec Digits.float
             [Tick; Tick; Tick; Tick; SetFile (Digits.file 6 Digits.nine);
              StopRequest; Tick; Tick; Tick]
             (Digits.started false None) in
  log s = [EvCheck false (Ok false); EvWait false; EvCheck false (Ok false);
           EvWait true; EvIsRunning Running; EvCheck true (Ok true)]
  /\ leaves (boundingBox (node s)) = [10; 20; 30; 40; 50; 60; 70; 80; 90]%Z.
Proof. vm_compute. split; reflexivity. Qed.

(** Without a stop request the watcher of a file that never appears is
    still polling after any number of rounds, and [join] does not
    return. *)
Example join_without_stop_request :
  fst (join Digits.float [Tick; Tick; Tick; Tick] (Digits.started false None))
  = Hang.
Proof. reflexivity. Qed.

(** ** Further properties of [updateBoundingBox] *)

Section CheckProperties.

Variable F : Type.
Variable float : string -> option F.

Lemma map_float_none_inv (ts : list string) :
  map_float float ts = None ->
  exists tok, In tok ts /\ float tok = None.
Proof.
  induction ts as [|t ts IH]; simpl; [discriminate|].
  destruct (float t) eqn:E.
  - destruct (map_float float ts); [discriminate|].
    intros _. destruct (IH eq_refl) as (tok & HI & HN). exists tok. auto.
  - intros _. exists t. auto.
Qed.

(** The case that applies to a file and a baseline, with the outcome
    of the check in that case. *)
Lemma update_classify (st : Q) (file : option FileStat) (n : Node F) :
  ((file = None \/ exists f, file = Some f /\ (mtime f < st)%Q)
   /\ fst (updateBoundingBox float st file n) = Ok false)
  \/ ((exists f tok, file = Some f /\ (st <= mtime f)%Q
                     /\ In tok (tokens_of f) /\ float tok = None)
      /\ fst (updateBoundingBox float st file n) = Raise ValueError)
  \/ ((exists f data, file = Some f /\ (st <= mtime f)%Q
                      /\ map_float float (tokens_of f) = Some data
                      /\ List.length data < 9)
      /\ fst (updateBoundingBox float st file n) = Raise IndexError)
  \/ ((exists f data, file = Some f /\ (st <= mtime f)%Q
                      /\ map_float float (tokens_of f) = Some data
                      /\ 9 <= List.length data)
      /\ fst (updateBoundingBox float st file n) = Ok true).
Proof.
  destruct file as [f|]; [|left; split; [left|]; reflexivity].
  destruct (Qlt_le_dec (mtime f) st) as [L|G].
  - left. split; [right; exists f; auto|].
    rewrite update_stale by exact L. reflexivity.
  - destruct (map_float float (tokens_of f)) as [data|] eqn:D.
    + destruct (le_lt_dec 9 (List.length data)) as [HL|HL].
      * do 3 right. split; [exists f, data; auto|].
        destruct (update_ok F float st f n data G D HL) as (n' & -> & _).
        reflexivity.
      * do 2 right. left. split; [exists f, data; auto|].
        destruct (update_short F float st f n data G D HL) as (n' & -> & _).
        reflexivity.
    + right. left. destruct (map_float_none_inv _ D) as (tok & HI & HN).
      split; [exists f, tok; auto|].
      rewrite update_bad by assumption. reflexivity.
Qed.

(** X1.  What a check gives is decided by the file alone: [False] when
    the file is missing or older than the baseline; [ValueError] when
    it is not older and some token is not a floating-point literal;
    [IndexError] when it is not older, all tokens are literals and
    there are fewer than nine; [True] when it is not older and holds at
    least nine tokens, all of them literals. *)
Theorem check_outcome_table (st : Q) (file : option FileStat) (n : Node F) :
  (fst (updateBoundingBox float st file n) = Ok false
   <-> (file = None \/ exists f, file = Some f /\ (mtime f < st)%Q))
  /\ (fst (updateBoundingBox float st file n) = Raise ValueError
      <-> exists f tok, file = Some f /\ (st <= mtime f)%Q
                        /\ In tok (tokens_of f) /\ float tok = None)
  /\ (fst (updateBoundingBox float st file n) = Raise IndexError
      <-> exists f data, file = Some f /\ (st <= mtime f)%Q
                         /\ map_float float (tokens_of f) = Some data
                         /\ List.length data < 9)
  /\ (fst (updateBoundingBox float st file n) = Ok true
      <-> exists f data, file = Some f /\ (st <= mtime f)%Q
                         /\ map_float float (tokens_of f) = Some data
                         /\ 9 <= List.length data).
Proof.
  pose proof (update_classify st file n) as C.
  repeat split; intro H.
  - destruct C as [[P E]|[[P E]|[[P E]|[P E]]]]; congruence || exact P.
  - destruct H as [->|(f & -> & L)]; [reflexivity|].
    rewrite update_stale by exact L. reflexivity.
  - destruct C as [[P E]|[[P E]|[[P E]|[P E]]]]; congruence || exact P.
  - destruct H as (f & tok & -> & G & HI & HN).
    rewrite update_bad; [reflexivity|exact G|].
    exact (map_float_bad F float _ _ HI HN).
  - destruct C as [[P E]|[[P E]|[[P E]|[P E]]]]; congruence || exact P.
  - destruct H as (f & data & -> & G & D & L).
    destruct (update_short F float st f n data G D L) as (n' & -> & _).
    reflexivity.
  - destruct C as [[P E]|[[P E]|[[P E]|[P E]]]]; congruence || exact P.
  - destruct H as (f & data & -> & G & D & L).
    destruct (update_ok F float st f n data G D L) as (n' & -> & _).
    reflexivity.
Qed.

(** X2.  A check of a file that is not stale and holds [k] valid
    tokens, [k] below nine, raises [IndexError] after it has written
    the first [k] fields: they hold the [k] values in order, the other
    fields, the validity flag and [useBoundingBox] are as before. *)
Theorem short_artifact_partial_write
    (st : Q) (f : FileStat) (n : Node F) (data : list F) :
  (st <= mtime f)%Q ->
  map_float float (tokens_of f) = Some data ->
  List.length data < 9 ->
  exists n',
    updateBoundingBox float st (Some f) n = (Raise IndexError, n')
    /\ leaves (boundingBox n')
       = data ++ skipn (List.length data) (leaves (boundingBox n))
    /\ automaticBBoxValid n' = automaticBBoxValid n
    /\ useBoundingBox n' = useBoundingBox n.
Proof.
  intros H HD HL. apply Qltb_ge in H. unfold updateBoundingBox.
  rewrite H, HD.
  do 9 (destruct data as [|? data];
        [eexists; split; [reflexivity|repeat split]|]).
  simpl in HL. lia.
Qed.

Lemma lstrip_all_space (s : string) :
  all_space s = true -> PyStr.lstrip s = EmptyString.
Proof.
  induction s as [|c s IH]; simpl; [reflexivity|].
  destruct (PyStr.is_space c); simpl; [exact IH|discriminate].
Qed.

(** X3.  A file that is not stale and is empty or holds whitespace
    only has no token: the check raises [IndexError] at [data[0]] and
    writes nothing. *)
Theorem blank_artifact_index_error
    (st : Q) (f : FileStat) (n : Node F) :
  (st <= mtime f)%Q ->
  all_space (content f) = true ->
  tokens_of f = []
  /\ updateBoundingBox float st (Some f) n = (Raise IndexError, n).
Proof.
  intros H B.
  assert (T : tokens_of f = []).
  { unfold tokens_of, PyStr.strip. rewrite lstrip_all_space by exact B.
    reflexivity. }
  split; [exact T|].
  apply Qltb_ge in H. unfold updateBoundingBox. rewrite H, T. reflexivity.
Qed.

End CheckProperties.

(** ** Further properties of the watcher thread *)

Section WatcherProperties.

Variable F : Type.
Variable float : string -> option F.

Lemma checks_app (l1 l2 : list event) :
  checks (l1 ++ l2) = checks l1 + checks l2.
Proof. unfold checks. rewrite filter_app, length_app. reflexivity. Qed.


Lemma update_keeps_manual (st : Q) (file : option FileStat) (n : Node F) :
  useBoundingBox (snd (updateBoundingBox float st file n))
  = useBoundingBox n.
Proof.
  destruct file as [f|]; [|reflexivity].
  destruct (Qlt_le_dec (mtime f) st) as [L|G].
  - rewrite update_stale by exact L. reflexivity.
  - destruct (map_float float (tokens_of f)) as [data|] eqn:D.
    + destruct (le_lt_dec 9 (List.length data)) as [HL|HL].
      * destruct (update_ok F float st f n data G D HL)
          as (n' & -> & _ & _ & U). exact U.
      * destruct (update_short F float st f n data G D HL)
          as (n' & -> & _ & U). exact U.
    + rewrite update_bad by assumption. reflexivity.
Qed.

(** A step of the thread, seen from the state. *)
Lemma tick_thread (s : State F) (t : Thread) :
  bboxThread s = Some t ->
  tick float s
  = {| node := snd (fst (run_step float (env s) t (node s)));
       env := env s;
       bboxThread := Some (fst (fst (run_step float (env s) t (node s))));
       log := log s ++ snd (run_step float (env s) t (node s)) |}.
Proof.
  intro T. unfold tick. rewrite T.
  destruct (run_step float (env s) t (node s)) as [[t' n'] evs].
  reflexivity.
Qed.

Lemma tick_no_thread (s : State F) :
  bboxThread s = None -> tick float s = s.
Proof. intro T. unfold tick. rewrite T. reflexivity. Qed.




(** X6.  The only exceptions with which the thread can leave [run] are
    [ValueError] and [IndexError], both raised by a check; when it does
    leave with one, the validity flag is as it was before. *)
Theorem only_parse_errors_escape
    (s : State F) (sch : list action) (e : exn) :
  exited s = false ->
  thread_pc (exec float sch s) = Some (Exited (Raise e)) ->
  (e = ValueError \/ e = IndexError)
  /\ automaticBBoxValid (node (exec float sch s))
     = automaticBBoxValid (node s).
Proof.
  set (K := fun s0 : State F =>
              (exited s0 = false
               /\ automaticBBoxValid (node s0) = automaticBBoxValid (node s))
              \/ (exists e0, (e0 = ValueError \/ e0 = IndexError)
                             /\ thread_pc s0 = Some (Exited (Raise e0))
                             /\ automaticBBoxValid (node s0)
                                = automaticBBoxValid (node s))
              \/ thread_pc s0 = Some (Exited (Ok tt))).
  assert (Old : forall a s0, exited s0 = true -> K s0 ->
                             K (exec_action float a s0)).
  { intros a s0 X H.
    destruct (exec_action_exited F float a s0 X) as (N' & _ & P').
    unfold K, exited in *. rewrite P', N'. exact H. }
  assert (St : forall a s0, K s0 -> K (exec_action float a s0)).
  { intros a s0 H. destruct H as [(NX & V)|[(e0 & E0 & P & V)|P]].
    - destruct a;
        try (left; split; [|exact V];
             unfold exited, thread_pc in *; simpl;
             destruct (bboxThread s0); exact NX).
      simpl. destruct (bboxThread s0) as [t|] eqn:T;
        [|rewrite tick_no_thread by exact T; left; auto].
      assert (NE : forall o, at_pc t <> Exited o).
      { intros o E. unfold exited, thread_pc in NX. rewrite T in NX.
        simpl in NX. rewrite E in NX. discriminate. }
      rewrite (tick_thread s0 t T).
      unfold K, exited, thread_pc, run_step. simpl.
      destruct (at_pc t) eqn:E; simpl; rewrite ?E; auto.
      + pose proof (update_cases F float (startTime t) (bboxFile (env s0))
                      (node s0)) as C.
        destruct (updateBoundingBox float (startTime t) (bboxFile (env s0))
                    (node s0)) as [[u|ex|] n'];
          inversion C; subst; simpl.
        * destruct (checkOnce t); simpl; auto.
        * auto.
        * right. left. exists ValueError. auto.
        * right. left. exists IndexError. split; [auto|].
          split; [reflexivity|congruence].
      + destruct (stopFlag t); simpl; auto.
      + destruct (parentAlive (env s0)); simpl; auto.
      + pose proof (update_cases F float (startTime t) (bboxFile (env s0))
                      (node s0)) as C.
        destruct (updateBoundingBox float (startTime t) (bboxFile (env s0))
                    (node s0)) as [[u|ex|] n'];
          inversion C; subst; simpl; auto.
        * right. left. exists ValueError. auto.
        * right. left. exists IndexError. split; [auto|].
          split; [reflexivity|congruence].
      + exfalso. exact (NE o eq_refl).
    - apply Old; [unfold exited; rewrite P; reflexivity|].
      right. left. exists e0. auto.
    - apply Old; [unfold exited; rewrite P; reflexivity|].
      right. right. exact P. }
  assert (I : forall sch s0, K s0 -> K (exec float sch s0)).
  { clear sch. induction sch as [|a sch IH]; intros s0 H; [exact H|].
    simpl. apply IH, St, H. }
  intros NX P.
  destruct (I sch s (or_introl (conj NX eq_refl)))
    as [(NX' & _)|[(e0 & E0 & P' & V)|P']].
  - unfold exited in NX'. rewrite P in NX'. discriminate.
  - rewrite P in P'. inversion P'; subst. auto.
  - rewrite P in P'. discriminate.
Qed.

(** X8.  In continuous mode, while no artifact is there and nobody
    asks to stop, the thread never leaves [run], however many steps it
    takes, and the node stays as it was. *)
Theorem polling_never_exits_without_stop
    (s : State F) (t : Thread) (sch : list action) :
  bboxThread s = Some t ->
  checkOnce t = false ->
  stopFlag t = false ->
  at_pc t = Started \/ at_pc t = AtCheck \/ at_pc t = AtWait ->
  bboxFile (env s) = None ->
  forallb quiet sch = true ->
  exited (exec float sch s) = false
  /\ node (exec float sch s) = node s.
Proof.
  set (Q := fun s0 : State F =>
              exists t0, bboxThread s0 = Some t0 /\ checkOnce t0 = false
                         /\ stopFlag t0 = false
                         /\ (at_pc t0 = Started \/ at_pc t0 = AtCheck
                             \/ at_pc t0 = AtWait)
                         /\ bboxFile (env s0) = None
                         /\ node s0 = node s).
  assert (St : forall a s0, quiet a = true -> Q s0 ->
                            Q (exec_action float a s0)).
  { intros a s0 Qa (t0 & T & C & Fl & P & Fi & N).
    destruct a as [|[f|]| | |]; try discriminate;
      try (unfold Q; exists t0; simpl; repeat split; assumption).
    simpl. rewrite (tick_thread s0 t0 T). unfold Q, run_step. simpl.
    destruct P as [P|[P|P]]; rewrite P; simpl.
    - eexists. split; [reflexivity|]. simpl. repeat split; auto.
    - rewrite Fi, update_absent, C. simpl.
      eexists. split; [reflexivity|]. simpl. repeat split; auto.
    - rewrite Fl. eexists. split; [reflexivity|]. simpl.
      repeat split; auto. }
  assert (I : forall sch s0, forallb quiet sch = true -> Q s0 ->
                             Q (exec float sch s0)).
  { clear sch. induction sch as [|a sch IH]; intros s0 H H0; [exact H0|].
    simpl in H. apply andb_prop in H. destruct H as (Ha & Hs).
    simpl. apply IH; [exact Hs|]. apply St; assumption. }
  intros T C Fl P Fi H.
  destruct (I sch s H) as (t0 & T0 & _ & _ & P0 & _ & N0).
  { exists t. repeat split; assumption. }
  split; [|exact N0].
  unfold exited, thread_pc. rewrite T0. simpl.
  destruct P0 as [P0|[P0|P0]]; rewrite P0; reflexivity.
Qed.

Lemma checks_snoc (l : list event) (ev : event) :
  checks (l ++ [ev]) = checks l + (if is_check ev then 1 else 0).
Proof.
  rewrite checks_app. unfold checks at 2. simpl.
  destruct (is_check ev); reflexivity.
Qed.

Lemma tick_budget (s : State F) :
  stopping s ->
  checks (log (tick float s)) + budget_of (tick float s)
  <= checks (log s) + budget_of s.
Proof.
  intros (t & T & Fl & P). rewrite (tick_thread s t T).
  unfold budget_of, thread_pc, run_step. rewrite T. simpl.
  destruct (at_pc t) eqn:E; simpl;
    try (destruct (updateBoundingBox float (startTime t) (bboxFile (env s))
                     (node s)) as [[u|ex|] n']; simpl);
    rewrite ?checks_snoc, ?app_nil_r, ?E, ?Fl; simpl;
    try (destruct (u || checkOnce t)); 
    try (destruct (parentAlive (env s))); simpl; lia.
Qed.

(** X9.  Once the stop flag is set, the thread makes at most two more
    checks, the one of the round it is in and the last one, and at
    most one when it is already waiting. *)
Theorem at_most_two_checks_after_stop
    (s : State F) (t : Thread) (sch : list action) :
  bboxThread s = Some t ->
  stopFlag t = true ->
  at_pc t <> Created ->
  checks (log (exec float sch s)) <= checks (log s) + budget (at_pc t)
  /\ budget (at_pc t) <= 2.
Proof.
  intros T Fl P.
  assert (I : forall sch s0, stopping s0 ->
             checks (log (exec float sch s0))
             + budget_of (exec float sch s0)
             <= checks (log s0) + budget_of s0).
  { clear. induction sch as [|a sch IH]; intros s0 H; [simpl; lia|].
    simpl. fold (exec float sch (exec_action float a s0)).
    pose proof (IH _ (exec_action_stopping F float a s0 H)) as B.
    assert (A : checks (log (exec_action float a s0))
                + budget_of (exec_action float a s0)
                <= checks (log s0) + budget_of s0).
    { destruct a; try (apply tick_budget; exact H);
        unfold budget_of, thread_pc; simpl;
        destruct (bboxThread s0); simpl; lia. }
    lia. }
  assert (S0 : stopping s) by (exists t; auto).
  pose proof (I sch s S0) as B.
  assert (E : budget_of s = budget (at_pc t))
    by (unfold budget_of, thread_pc; rewrite T; reflexivity).
  split; [lia|]. destruct (at_pc t); simpl; lia.
Qed.

(** X14.  Once [run] has assigned the baseline, nothing changes it
    any more, nor the mode and the poll interval of the thread; and a
    stop flag that is set stays set. *)
Theorem baseline_fixed_after_start
    (s : State F) (t : Thread) (sch : list action) :
  bboxThread s = Some t ->
  at_pc t <> Created ->
  at_pc t <> Started ->
  exists t',
    bboxThread (exec float sch s) = Some t'
    /\ startTime t' = startTime t
    /\ checkOnce t' = checkOnce t
    /\ interval t' = interval t
    /\ (stopFlag t = true -> stopFlag t' = true).
Proof.
  set (B := fun s0 : State F =>
              exists t0, bboxThread s0 = Some t0
                         /\ at_pc t0 <> Created /\ at_pc t0 <> Started
                         /\ startTime t0 = startTime t
                         /\ checkOnce t0 = checkOnce t
                         /\ interval t0 = interval t
                         /\ (stopFlag t = true -> stopFlag t0 = true)).
  assert (St : forall a s0, B s0 -> B (exec_action float a s0)).
  { intros a s0 (t0 & T & P1 & P2 & S1 & C1 & I1 & F1).
    destruct a; try (exists t0; simpl; auto 10; fail).
    - simpl. rewrite (tick_thread s0 t0 T). unfold B, run_step. simpl.
      destruct (at_pc t0) eqn:E; try congruence;
        try (destruct (updateBoundingBox float (startTime t0)
                         (bboxFile (env s0)) (node s0)) as [[u|ex|] n']);
        simpl; eexists; (split; [reflexivity|]); simpl; rewrite ?E;
        repeat split; try assumption; try discriminate;
        try (destruct (u || checkOnce t0); discriminate);
        try (destruct (stopFlag t0); discriminate);
        try (destruct (parentAlive (env s0)); discriminate).
    - simpl. rewrite T. eexists. split; [reflexivity|]. simpl. auto 10. }
  assert (I : forall sch s0, B s0 -> B (exec float sch s0)).
  { clear sch. induction sch as [|a sch IH]; intros s0 H; [exact H|].
    simpl. apply IH, St, H. }
  intros T P1 P2.
  destruct (I sch s) as (t' & T' & _ & _ & R); [exists t; auto 10|].
  exists t'. auto.
Qed.

End WatcherProperties.

(** ** Further properties of the guard and of its teardown *)

Section GuardProperties.

Variable F : Type.
Variable float : string -> option F.

(** The state in which the [finally] block leaves a started watcher. *)
Lemma stop_join_state (waiting : list action) (s : State F) :
  launched s ->
  (request_stop float ;; join float waiting)%st s
  = (Ok tt,
     emit EvJoin
       (exec float (waiting ++ drain)
          (emit EvStopRequest (exec_action float StopRequest s))))
  /\ exited (exec float (waiting ++ drain)
               (emit EvStopRequest (exec_action float StopRequest s)))
     = true.
Proof.
  intros (t & T & P).
  set (s4 := emit EvStopRequest (exec_action float StopRequest s)).
  assert (I : stopping s4).
  { exists (stopRequest t). unfold s4. simpl. rewrite T. auto. }
  pose proof (drain_exited F float waiting s4 I) as X.
  split; [|exact X].
  unfold bind, request_stop, modify. fold s4. unfold join.
  assert (Pc : thread_pc s4 = Some (at_pc t))
    by (unfold s4, thread_pc; simpl; rewrite T; reflexivity).
  rewrite Pc, X. destruct (at_pc t); congruence.
Qed.

(** X7.  After a stop request, [join] on a started thread returns, in
    whatever position the thread was and whatever happens while the
    caller waits, and the thread has then left [run]. *)
Theorem join_after_stopRequest_returns
    (s : State F) (t : Thread) (waiting : list action) :
  bboxThread s = Some t ->
  at_pc t <> Created ->
  exists s',
    (request_stop float ;; join float waiting)%st s = (Ok tt, s')
    /\ exited s' = true.
Proof.
  intros T P.
  destruct (stop_join_state waiting s) as (E & X); [exists t; auto|].
  eexists. split; [exact E|]. exact X.
Qed.

(** X10.  A valid artifact of nine values that is in place and not
    stale when the guard tears the watcher down is applied, wherever
    the thread stands in its loop, provided the owning process is
    running and the file stays as it is. *)
Theorem teardown_applies_ready_artifact
    (s : State F) (t : Thread) (f : FileStat) (data : list F)
    (waiting : list action) :
  bboxThread s = Some t ->
  at_pc t = AtCheck \/ at_pc t = AtWait \/ at_pc t = AtLive
  \/ at_pc t = AtFinal ->
  bboxFile (env s) = Some f ->
  parentAlive (env s) = Running ->
  (startTime t <= mtime f)%Q ->
  map_float float (tokens_of f) = Some data ->
  List.length data = 9 ->
  forallb steady waiting = true ->
  exists s',
    (request_stop float ;; join float waiting)%st s = (Ok tt, s')
    /\ leaves (boundingBox (node s')) = data
    /\ automaticBBoxValid (node s') = true.
Proof.
  intros T P Fi A R D L W.
  set (G := fun s0 : State F =>
              bboxFile (env s0) = Some f /\ parentAlive (env s0) = Running
              /\ exists t0,
                   bboxThread s0 = Some t0 /\ startTime t0 = startTime t
                   /\ ((at_pc t0 = AtCheck \/ at_pc t0 = AtWait
                        \/ at_pc t0 = AtLive \/ at_pc t0 = AtFinal)
                       \/ (at_pc t0 = Exited (Ok tt)
                           /\ leaves (boundingBox (node s0)) = data
                           /\ automaticBBoxValid (node s0) = true))).
  assert (St : forall a s0, steady a = true -> G s0 ->
                            G (exec_action float a s0)).
  { intros a s0 Sa (Fi0 & A0 & t0 & T0 & S0 & H).
    destruct a; try discriminate;
      try (unfold G; simpl; repeat (split; [assumption|]);
           exists t0; tauto).
    - simpl. destruct H as [H|(E & Lv & V)].
      + rewrite (tick_thread F float s0 t0 T0). unfold G, run_step. simpl.
        repeat (split; [assumption|]).
        destruct (update_ok F float (startTime t0) f (node s0) data)
          as (n' & U & Lv & V & _);
          [rewrite S0; exact R|exact D|lia|].
        rewrite <- L, firstn_all in Lv.
        destruct H as [E|[E|[E|E]]]; rewrite E; simpl;
          rewrite ?Fi0, ?U, ?A0; simpl;
          eexists; (split; [reflexivity|]); simpl;
          (split; [exact S0|]); auto 8.
        destruct (stopFlag t0); auto 8.
      + rewrite tick_exited
          by (unfold exited, thread_pc; rewrite T0; simpl; rewrite E; auto).
        unfold G. repeat (split; [assumption|]). exists t0. tauto.
    - unfold G. simpl. repeat (split; [assumption|]). rewrite T0.
      eexists. split; [reflexivity|]. simpl. tauto. }
  assert (I : forall sch s0, forallb steady sch = true -> G s0 ->
                             G (exec float sch s0)).
  { clear W. intros sch. induction sch as [|a sch IH]; intros s0 H H0;
      [exact H0|].
    simpl in H. apply andb_prop in H. destruct H as (Ha & Hs).
    simpl. apply IH; [exact Hs|]. apply St; assumption. }
  destruct (stop_join_state waiting s) as (E & X); [exists t; split; auto|].
  { destruct P as [P|[P|[P|P]]]; rewrite P; discriminate. }
  eexists. split; [exact E|]. simpl.
  assert (G0 : G (emit EvStopRequest (exec_action float StopRequest s))).
  { unfold G. simpl. repeat (split; [assumption|]). rewrite T.
    eexists. split; [reflexivity|]. simpl. tauto. }
  assert (W' : forallb steady (waiting ++ drain) = true)
    by (rewrite forallb_app, W; reflexivity).
  destruct (I _ _ W' G0) as (_ & _ & t1 & T1 & _ & H).
  unfold exited, thread_pc in X. rewrite T1 in X. simpl in X.
  destruct H as [[H|[H|[H|H]]]|(_ & Lv & V)];
    try (rewrite H in X; discriminate).
  auto.
Qed.

(** X11.  When the owning process is not running ([is_running] is
    false or raises [NoSuchProcess]) while the watcher waits, the
    teardown makes no check: [join] returns and the node is as it was,
    even when a valid artifact is in place. *)
Theorem teardown_skips_check_when_parent_gone
    (s : State F) (t : Thread) (waiting : list action) :
  bboxThread s = Some t ->
  at_pc t = AtWait \/ at_pc t = AtLive ->
  parentAlive (env s) <> Running ->
  forallb parent_stays_gone waiting = true ->
  exists s',
    (request_stop float ;; join float waiting)%st s = (Ok tt, s')
    /\ node s' = node s
    /\ checks (log s') = checks (log s).
Proof.
  intros T P A W.
  set (G := fun s0 : State F =>
              parentAlive (env s0) <> Running
              /\ node s0 = node s
              /\ checks (log s0) = checks (log s)
              /\ exists t0,
                   bboxThread s0 = Some t0 /\ stopFlag t0 = true
                   /\ (at_pc t0 = AtWait \/ at_pc t0 = AtLive
                       \/ exists o, at_pc t0 = Exited o)).
  assert (St : forall a s0, parent_stays_gone a = true -> G s0 ->
                            G (exec_action float a s0)).
  { intros a s0 Sa (A0 & N0 & C0 & t0 & T0 & Fl & H).
    destruct a as [| | |l|];
      try (unfold G; simpl; repeat (split; [assumption|]);
           exists t0; tauto).
    - simpl. rewrite (tick_thread F float s0 t0 T0). unfold G, run_step.
      simpl. split; [exact A0|].
      destruct H as [E|[E|(o & E)]]; rewrite E; simpl;
        rewrite ?Fl, ?checks_snoc, ?app_nil_r; simpl;
        (split; [exact N0|]); (split; [lia|]);
        eexists; (split; [reflexivity|]); simpl; (split; [exact Fl|]);
        rewrite ?E; eauto.
      destruct (parentAlive (env s0)); eauto. congruence.
    - unfold G. simpl. destruct l; try discriminate;
        (split; [discriminate|]); repeat (split; [assumption|]);
        exists t0; tauto.
    - unfold G. simpl. repeat (split; [assumption|]). rewrite T0.
      eexists. split; [reflexivity|]. simpl. tauto. }
  assert (I : forall sch s0, forallb parent_stays_gone sch = true ->
                             G s0 -> G (exec float sch s0)).
  { clear W. intros sch. induction sch as [|a sch IH]; intros s0 H H0;
      [exact H0|].
    simpl in H. apply andb_prop in H. destruct H as (Ha & Hs).
    simpl. apply IH; [exact Hs|]. apply St; assumption. }
  destruct (stop_join_state waiting s) as (E & X); [exists t; split; auto|].
  { destruct P as [P|P]; rewrite P; discriminate. }
  eexists. split; [exact E|].
  assert (G0 : G (emit EvStopRequest (exec_action float StopRequest s))).
  { unfold G. simpl. split; [exact A|]. split; [reflexivity|].
    split; [rewrite checks_snoc; simpl; lia|]. rewrite T.
    eexists. split; [reflexivity|]. simpl. tauto. }
  assert (W' : forallb parent_stays_gone (waiting ++ drain) = true)
    by (rewrite forallb_app, W; reflexivity).
  destruct (I _ _ W' G0) as (_ & N1 & C1 & _).
  split; [exact N1|]. cbn [emit log]. rewrite checks_snoc, C1.
  simpl. lia.
Qed.

(** The guard around a returning or raising operation, when it creates
    a watcher: outcome and final state. *)
Lemma guard_state (A : Type) (s : State F) (once : bool) (b : Body A)
    (waiting : list action) :
  useBoundingBox (node s) = false ->
  outcome b <> Hang ->
  boundingBoxMonitor float once (body_run float b) waiting s
  = (outcome b,
     emit EvJoin
       (exec float (waiting ++ drain)
          (emit EvStopRequest
             (exec_action float StopRequest
                (emit EvBodyEnd
                   (exec float (during b) (launch once s)))))))
  /\ exited (exec float (waiting ++ drain)
               (emit EvStopRequest
                  (exec_action float StopRequest
                     (emit EvBodyEnd
                        (exec float (during b) (launch once s))))))
     = true.
Proof.
  intros U NH.
  assert (I1 : launched (launch once s)).
  { eexists. split; [reflexivity|]. discriminate. }
  set (s3 := emit EvBodyEnd (exec float (during b) (launch once s))).
  assert (I3 : launched s3)
    by (apply emit_launched, exec_launched, I1).
  destruct (stop_join_state waiting s3 I3) as (E & X).
  split; [|exact X].
  unfold boundingBoxMonitor. unfold bind at 1. unfold modify at 1.
  apply try_finally_returns with (s1 := s3); [|exact NH|].
  - unfold bind, gets, create, start, modify, ret, body_run.
    cbn -[exec]. rewrite U. cbn -[exec].
    fold (launch once s). fold s3.
    destruct (outcome b); congruence.
  - destruct I3 as (t3 & T3 & _).
    unfold bind at 1. unfold gets. rewrite T3. exact E.
Qed.

Lemma exec_action_once_count (c : nat) (a : action) (s : State F) :
  once_count c s -> once_count c (exec_action float a s).
Proof.
  intros (t & T & C & H).
  destruct a; simpl; unfold once_count; simpl;
    try (exists t; tauto).
  - rewrite (tick_thread F float s t T). unfold run_step. simpl.
    destruct H as [[[P|P] L]|(o & P & L)]; rewrite P; simpl.
    + eexists. split; [reflexivity|]. simpl.
      split; [exact C|]. left. rewrite app_nil_r. auto.
    + destruct (updateBoundingBox float (startTime t)
                  (bboxFile (env s)) (node s)) as [[u|ex|] n'] eqn:U;
        simpl.
      * eexists. split; [reflexivity|]. simpl. split; [exact C|].
        right. rewrite C, orb_true_r, checks_snoc, L. simpl.
        eexists. split; [reflexivity|lia].
      * eexists. split; [reflexivity|]. simpl. split; [exact C|].
        right. rewrite checks_snoc, L. simpl.
        eexists. split; [reflexivity|lia].
      * exfalso. exact (update_returns F float _ _ _ _ U).
    + eexists. split; [reflexivity|]. split; [exact C|]. right.
      simpl. rewrite app_nil_r, P. eauto.
  - rewrite T. simpl. eexists. split; [reflexivity|]. simpl. tauto.
Qed.

Lemma exec_once_count (c : nat) (sch : list action) (s : State F) :
  once_count c s -> once_count c (exec float sch s).
Proof.
  revert s. induction sch as [|a sch IH]; intros s I; [exact I|].
  simpl. apply IH, exec_action_once_count, I.
Qed.

Lemma emit_once_count (c : nat) (ev : event) (s : State F) :
  is_check ev = false -> once_count c s -> once_count c (emit ev s).
Proof.
  intros N (t & T & C & H). exists t. simpl.
  rewrite checks_snoc, N, Nat.add_0_r. tauto.
Qed.

(** X12.  Under the guard in single-shot mode the watcher makes
    exactly one check, whatever the wrapped operation does and however
    it ends; the stop request of the teardown adds none. *)
Theorem single_shot_guard_checks_once
    (A : Type) (s : State F) (b : Body A) (waiting : list action) :
  useBoundingBox (node s) = false ->
  outcome b <> Hang ->
  fst (boundingBoxMonitor float true (body_run float b) waiting s)
  = outcome b
  /\ checks (log (snd (boundingBoxMonitor float true (body_run float b)
                         waiting s)))
     = S (checks (log s)).
Proof.
  intros U NH. destruct (guard_state A s true b waiting U NH) as (E & X).
  rewrite E. split; [reflexivity|]. cbn [snd emit log].
  rewrite checks_snoc. cbn [is_check].
  assert (I0 : once_count (checks (log s)) (launch true s)).
  { eexists. split; [reflexivity|]. split; [reflexivity|]. left.
    split; [auto|]. unfold launch. cbn [emit log set_thread].
    rewrite !checks_snoc. simpl. lia. }
  assert (I : once_count (checks (log s))
                (exec float (waiting ++ drain)
                   (emit EvStopRequest
                      (exec_action float StopRequest
                         (emit EvBodyEnd
                            (exec float (during b) (launch true s))))))).
  { apply exec_once_count, emit_once_count; [reflexivity|].
    apply exec_action_once_count, emit_once_count; [reflexivity|].
    apply exec_once_count, I0. }
  destruct I as (t & T & _ & [[[P|P] _]|(o & _ & C)]);
    try (unfold exited, thread_pc in X; rewrite T in X; simpl in X;
         rewrite P in X; discriminate).
  rewrite C. lia.
Qed.

Lemma tick_keeps_manual (s : State F) :
  useBoundingBox (node (tick float s)) = useBoundingBox (node s).
Proof.
  destruct (bboxThread s) as [t|] eqn:T;
    [|rewrite tick_no_thread by exact T; reflexivity].
  rewrite (tick_thread F float s t T). unfold run_step. simpl.
  pose proof (update_keeps_manual F float (startTime t) (bboxFile (env s))
                (node s)) as K.
  destruct (at_pc t); simpl; auto;
    destruct (updateBoundingBox float (startTime t) (bboxFile (env s))
                (node s)) as [[u|ex|] n']; simpl in *; exact K.
Qed.

Lemma exec_keeps_manual (sch : list action) (s : State F) :
  useBoundingBox (node (exec float sch s)) = useBoundingBox (node s).
Proof.
  revert s. induction sch as [|a sch IH]; intros s; [reflexivity|].
  simpl. fold (exec float sch (exec_action float a s)). rewrite IH.
  destruct a; simpl; auto. apply tick_keeps_manual.
Qed.

Lemma keeps_bind {A B : Type} (m : ST (State F) A)
    (k : A -> ST (State F) B) :
  keeps_manual m -> (forall a, keeps_manual (k a)) -> keeps_manual (bind m k).
Proof.
  intros Hm Hk s. unfold bind. specialize (Hm s).
  destruct (m s) as [[a|e|] s']; simpl in *; try exact Hm.
  rewrite Hk. exact Hm.
Qed.

Lemma keeps_try_finally {A : Type} (m : ST (State F) A)
    (fin : ST (State F) unit) :
  keeps_manual m -> keeps_manual fin -> keeps_manual (try_finally m fin).
Proof.
  intros Hm Hf s. unfold try_finally. specialize (Hm s).
  destruct (m s) as [[a|e|] s']; simpl in *; try exact Hm;
    specialize (Hf s'); destruct (fin s') as [[u|e'|] s''];
    simpl in *; congruence.
Qed.

Lemma keeps_join (waiting : list action) :
  keeps_manual (join float waiting).
Proof.
  intro s. unfold join.
  destruct (thread_pc s) as [[| | | | | |o]|]; try reflexivity;
    destruct (exited (exec float (waiting ++ drain) s)); simpl;
    apply exec_keeps_manual.
Qed.

Lemma keeps_body_run {A : Type} (b : Body A) :
  keeps_manual (body_run float b).
Proof.
  intro s. unfold body_run.
  destruct (outcome b); simpl; rewrite exec_keeps_manual; reflexivity.
Qed.

(** X13.  Nothing in the watcher or in the guard writes
    [useBoundingBox]: it is the same after any run of the system and
    after the guard, whatever the wrapped operation's outcome. *)
Theorem guard_keeps_useBoundingBox
    (A : Type) (s : State F) (once : bool) (b : Body A)
    (during_join sch : list action) :
  useBoundingBox (node (exec float sch s)) = useBoundingBox (node s)
  /\ useBoundingBox
       (node (snd (boundingBoxMonitor float once (body_run float b)
                     during_join s)))
     = useBoundingBox (node s).
Proof.
  split; [apply exec_keeps_manual|].
  revert s. change (keeps_manual
                      (boundingBoxMonitor float once (body_run float b)
                         during_join)).
  unfold boundingBoxMonitor.
  apply keeps_bind; [intro s; reflexivity|]. intros _.
  apply keeps_try_finally.
  - apply keeps_bind; [intro s; reflexivity|]. intro u.
    apply keeps_bind; [|intros _; apply keeps_body_run].
    destruct (negb u); [|intro s; reflexivity].
    apply keeps_bind; [intro s; reflexivity|]. intros _ s.
    unfold start. destruct (bboxThread s) as [t|]; [|reflexivity].
    destruct (at_pc t); reflexivity.
  - apply keeps_bind; [intro s; reflexivity|]. intros [t|];
      [|intro s; reflexivity].
    apply keeps_bind; [|intros _; apply keeps_join].
    intro s. unfold request_stop, modify. simpl. reflexivity.
Qed.

(** X15.  When no artifact is there before and none appears while the
    wrapped operation runs or while the guard waits in [join], the
    guard ends with the operation's outcome, the watcher has left
    [run], and the node is exactly as it was. *)
Theorem guard_without_artifact_leaves_node
    (A : Type) (s : State F) (once : bool) (b : Body A)
    (waiting : list action) :
  useBoundingBox (node s) = false ->
  outcome b <> Hang ->
  bboxFile (env s) = None ->
  forallb no_artifact (during b) = true ->
  forallb no_artifact waiting = true ->
  exists s',
    boundingBoxMonitor float once (body_run float b) waiting s
    = (outcome b, s')
    /\ exited s' = true
    /\ node s' = node s.
Proof.
  intros U NH Fi D W.
  destruct (guard_state A s once b waiting U NH) as (E & X).
  eexists. split; [exact E|]. split; [exact X|].
  set (N := fun s0 : State F =>
              bboxFile (env s0) = None /\ node s0 = node s).
  assert (St : forall a s0, no_artifact a = true -> N s0 ->
                            N (exec_action float a s0)).
  { intros a s0 Na (Fi0 & N0).
    destruct a as [|[f|]| | |]; try discriminate;
      try (unfold N; simpl; split; auto; fail).
    simpl. destruct (bboxThread s0) as [t|] eqn:T;
      [|rewrite tick_no_thread by exact T; split; assumption].
    rewrite (tick_thread F float s0 t T). unfold N, run_step. simpl.
    split; [exact Fi0|].
    destruct (at_pc t); simpl; try exact N0;
      rewrite Fi0, update_absent; simpl; exact N0. }
  assert (I : forall sch s0, forallb no_artifact sch = true -> N s0 ->
                             N (exec float sch s0)).
  { intros sch. induction sch as [|a sch IH]; intros s0 H H0; [exact H0|].
    simpl in H. apply andb_prop in H. destruct H as (Ha & Hs).
    simpl. apply IH; [exact Hs|]. apply St; assumption. }
  assert (W' : forallb no_artifact (waiting ++ drain) = true)
    by (rewrite forallb_app, W; reflexivity).
  cbn [emit node].
  apply (I _ _ W'). apply (St StopRequest); [reflexivity|].
  apply (I _ _ D). split; [exact Fi|reflexivity].
Qed.

End GuardProperties.

(** ** The further properties at concrete inputs *)

Lemma short_artifact_partial_write_witness :
  exists n',
    updateBoundingBox Digits.float 5 (Digits.file 6 Digits.eight)
      Digits.node0 = (Raise IndexError, n')
    /\ leaves (boundingBox n') = [10; 20; 30; 40; 50; 60; 70; 80; 1]%Z.
Proof.
  destruct (short_artifact_partial_write Z Digits.float 5
              {| mtime := 6; content := Digits.eight |} Digits.node0
              [10; 20; 30; 40; 50; 60; 70; 80]%Z)
    as (n' & U & L & _).
  - vm_compute. discriminate.
  - reflexivity.
  - vm_compute. lia.
  - exists n'. split; [exact U|exact L].
Defined.

Lemma blank_artifact_index_error_witness :
  updateBoundingBox Digits.float 5
    (Digits.file 6 (Digits.lines [" "; ""; ""]%string)) Digits.node0
  = (Raise IndexError, Digits.node0).
Proof.
  apply (blank_artifact_index_error Z Digits.float 5
           {| mtime := 6; content := Digits.lines [" "; ""; ""]%string |}
           Digits.node0).
  - vm_compute. discriminate.
  - reflexivity.
Defined.



Lemma only_parse_errors_escape_witness :
  (IndexError = ValueError \/ IndexError = IndexError)
  /\ automaticBBoxValid
       (node (exec Digits.float [Tick]
                (Digits.polling (Digits.file 6 Digits.eight))))
     = false.
Proof.
  apply (only_parse_errors_escape Z Digits.float
           (Digits.polling (Digits.file 6 Digits.eight)) [Tick] IndexError);
    reflexivity.
Defined.

Lemma polling_never_exits_without_stop_witness :
  exited (exec Digits.float [Tick; Tick; Tick; SetClock 9; Tick; Tick]
            (Digits.started false None)) = false.
Proof.
  apply (polling_never_exits_without_stop Z Digits.float
           (Digits.started false None)
           (set_pc Started (BoundingBoxThread false))
           [Tick; Tick; Tick; SetClock 9; Tick; Tick]);
    try reflexivity.
  left. reflexivity.
Defined.

Lemma at_most_two_checks_after_stop_witness :
  checks (log (exec Digits.float
                 [Tick; SetFile (Digits.file 6 Digits.nine); Tick; Tick; Tick]
                 (Digits.waiting_stopped None))) <= 0 + 1.
Proof.
  apply (at_most_two_checks_after_stop Z Digits.float
           (Digits.waiting_stopped None)
           (stopRequest
              (set_pc AtWait (set_startTime 5 (BoundingBoxThread false))))
           [Tick; SetFile (Digits.file 6 Digits.nine); Tick; Tick; Tick]);
    try reflexivity.
  discriminate.
Defined.

Lemma baseline_fixed_after_start_witness :
  exists t',
    bboxThread (exec Digits.float [Tick; SetClock 9; Tick; StopRequest; Tick]
                  (Digits.polling None)) = Some t'
    /\ startTime t' = 5%Q.
Proof.
  destruct (baseline_fixed_after_start Z Digits.float
              (Digits.polling None)
              (set_pc AtCheck (set_startTime 5 (BoundingBoxThread false)))
              [Tick; SetClock 9; Tick; StopRequest; Tick] eq_refl)
    as (t' & T & S & _); try discriminate.
  exists t'. split; [exact T|exact S].
Defined.

Lemma join_after_stopRequest_returns_witness :
  exists s',
    (request_stop Digits.float ;; join Digits.float [Tick])%st
      (Digits.started false None) = (Ok tt, s')
    /\ exited s' = true.
Proof.
  apply (join_after_stopRequest_returns Z Digits.float
           (Digits.started false None)
           (set_pc Started (BoundingBoxThread false)) [Tick] eq_refl).
  discriminate.
Defined.

Lemma teardown_applies_ready_artifact_witness :
  exists s',
    (request_stop Digits.float ;; join Digits.float [Tick; SetClock 9])%st
      (Digits.waiting_stopped (Digits.file 6 Digits.nine)) = (Ok tt, s')
    /\ leaves (boundingBox (node s'))
       = [10; 20; 30; 40; 50; 60; 70; 80; 90]%Z
    /\ automaticBBoxValid (node s') = true.
Proof.
  apply (teardown_applies_ready_artifact Z Digits.float
           (Digits.waiting_stopped (Digits.file 6 Digits.nine))
           (stopRequest
              (set_pc AtWait (set_startTime 5 (BoundingBoxThread false))))
           {| mtime := 6; content := Digits.nine |}
           [10; 20; 30; 40; 50; 60; 70; 80; 90]%Z
           [Tick; SetClock 9]); try reflexivity.
  - right. left. reflexivity.
  - vm_compute. discriminate.
Defined.

Lemma teardown_skips_check_when_parent_gone_witness :
  exists s',
    (request_stop Digits.float ;; join Digits.float [Tick])%st
      (exec Digits.float [SetAlive NotRunning]
         (Digits.waiting_stopped (Digits.file 6 Digits.nine)))
    = (Ok tt, s')
    /\ node s' = Digits.node0.
Proof.
  destruct (teardown_skips_check_when_parent_gone Z Digits.float
              (exec Digits.float [SetAlive NotRunning]
                 (Digits.waiting_stopped (Digits.file 6 Digits.nine)))
              (stopRequest
                 (set_pc AtWait (set_startTime 5 (BoundingBoxThread false))))
              [Tick] eq_refl (or_introl eq_refl))
    as (s' & E & N & _).
  - discriminate.
  - reflexivity.
  - exists s'. split; [exact E|exact N].
Defined.

Lemma single_shot_guard_checks_once_witness :
  checks (log (snd (boundingBoxMonitor Digits.float true
                      (body_run Digits.float
                         {| during := [Tick; Tick; Tick; StopRequest; Tick];
                            outcome := @Raise unit KeyboardInterrupt |})
                      [Tick] (Digits.idle false (Digits.file 1 Digits.nine)))))
  = 1.
Proof.
  apply (single_shot_guard_checks_once Z Digits.float unit
           (Digits.idle false (Digits.file 1 Digits.nine))
           {| during := [Tick; Tick; Tick; StopRequest; Tick];
              outcome := @Raise unit KeyboardInterrupt |}
           [Tick] eq_refl).
  discriminate.
Defined.

Lemma guard_without_artifact_leaves_node_witness :
  exists s',
    boundingBoxMonitor Digits.float false
      (body_run Digits.float
         {| during := [Tick; Tick; Tick; SetClock 9; Tick]; outcome := Ok tt |})
      [Tick] (Digits.idle false None)
    = (Ok tt, s')
    /\ exited s' = true
    /\ node s' = node (Digits.idle false None).
Proof.
  apply (guard_without_artifact_leaves_node Z Digits.float unit
           (Digits.idle false None) false
           {| during := [Tick; Tick; Tick; SetClock 9; Tick];
              outcome := Ok tt |}
           [Tick] eq_refl); try reflexivity.
  discriminate.
Defined.

(** ** A valid artifact that arrives while the watcher polls *)

Section Arrival.

Variable F : Type.
Variable float : string -> option F.






Section Valid.

Variable b : Q.
Variable f : FileStat.
Variable data : list F.
Hypothesis Fresh : (b <= mtime f)%Q.
Hypothesis Parsed : map_float float (tokens_of f) = Some data.
Hypothesis Nine : List.length data = 9.










End Valid.


End Arrival.

